(** * Heat-map synthesis pipeline (heat_map.py): model and properties

    The functions of [heat_map.py] are embedded as executable Rocq
    functions.  Python floats and NumPy float64 values are Rocq's primitive
    binary64 floats, so every rounding of the source is the rounding of the
    model; unsigned 8-bit array elements are integers in [0, 256); Python
    exceptions are [None] (or a [Raise] result where the exception kind
    matters). *)

From Stdlib Require Import ZArith Floats Uint63 String Ascii List Lia Bool.
From Stdlib Require Strings.Byte.
From stdpp Require Import base option list.

Local Open Scope Z_scope.
Set Warnings "-inexact-float,-register-all".

(** [map] is the list instance of stdpp's [fmap]. *)
Abbreviation map := (fmap (M:=list)) (only parsing).

(** ** Python numbers *)

Module Py.

(** [float(n)] for a Python int: exact below 2^53, correctly rounded below
    2^63; every integer the pipeline converts is below 2^16. *)
Definition of_Z (n : Z) : float :=
  if n <? 0 then PrimFloat.opp (PrimFloat.of_uint63 (Uint63.of_Z (- n)))
  else PrimFloat.of_uint63 (Uint63.of_Z n).

(** The sign-and-magnitude integer of a finite float: the float is
    [mant * 2 ^ e]. *)
Definition mant (s : bool) (m : positive) : Z :=
  if s then Z.neg m else Z.pos m.

(** Truncation toward zero of a float given by its sign, mantissa and
    exponent. *)
Definition int_sf (f : spec_float) : option Z :=
  match f with
  | S754_zero _ => Some 0
  | S754_finite s m e =>
      Some (if 0 <=? e then mant s m * 2 ^ e
            else Z.quot (mant s m) (2 ^ (- e)))
  | S754_infinity _ | S754_nan => None
  end.

(** [int(x)]: truncation toward zero; [None] stands for the [ValueError]
    (NaN) or [OverflowError] (infinity) Python raises. *)
Definition int (x : float) : option Z := int_sf (Prim2SF x).

(** [math.floor(x)], the rounding the specification speaks of. *)
Definition floor (x : float) : option Z :=
  match Prim2SF x with
  | S754_zero _ => Some 0
  | S754_finite s m e =>
      Some (if 0 <=? e then mant s m * 2 ^ e
            else Z.div (mant s m) (2 ^ (- e)))
  | S754_infinity _ | S754_nan => None
  end.

(** Exact comparison of a float with an integer, as Python compares them;
    [None] when the float is NaN (every ordered comparison is then
    false). *)
Definition cmp (x : float) (n : Z) : option comparison :=
  match Prim2SF x with
  | S754_nan => None
  | S754_infinity s => Some (if s then Lt else Gt)
  | S754_zero _ => Some (0 ?= n)
  | S754_finite s m e =>
      Some (if 0 <=? e then mant s m * 2 ^ e ?= n
            else mant s m ?= n * 2 ^ (- e))
  end.

(** [n <= x] *)
Definition int_le (n : Z) (x : float) : bool :=
  match cmp x n with Some Eq | Some Gt => true | _ => false end.

(** [x < n] *)
Definition lt_int (x : float) (n : Z) : bool :=
  match cmp x n with Some Lt => true | _ => false end.

(** [x <= n] *)
Definition le_int (x : float) (n : Z) : bool :=
  match cmp x n with Some Lt | Some Eq => true | _ => false end.

(** NumPy's [astype(np.uint8)] on a float64 and the store of a float64
    into a [uint8] array: the C conversion, which truncates toward zero.
    Every value the pipeline converts lies in [0, 256); outside that range
    the C conversion is undefined and the model wraps modulo 256 (NaN and
    infinities give 0). *)
Definition to_uint8 (x : float) : Z :=
  match int x with
  | Some z => z mod 256
  | None => 0
  end.

(** The store of a Python or int64 integer into a [uint8] array wraps. *)
Definition wrap_uint8 (z : Z) : Z := z mod 256.

(** A sequence index: negative indices count from the end; [None] is
    Python's [IndexError]. *)
Definition index (len : nat) (i : Z) : option nat :=
  if (0 <=? i) && (i <? Z.of_nat len) then Some (Z.to_nat i)
  else if (- Z.of_nat len <=? i) && (i <? 0) then Some (Z.to_nat (Z.of_nat len + i))
  else None.

End Py.

(** ** Density rasterizer: the accumulation loop of [generate_heatmap] *)

(** The density grid is a [height] x [width] array of [np.float32].  During
    accumulation a cell only ever holds an integer count, so a cell is the
    integer it holds; [f32_add1] is binary32 addition of 1, which is exact
    below 2^24 and returns its argument at 2^24 (16777217 is not a binary32
    value and the tie rounds to the even mantissa 16777216). *)
Abbreviation grid := (list (list Z)) (only parsing).

Definition f32_limit : Z := 16777216.

Definition f32_add1 (c : Z) : Z :=
  if c <? f32_limit then c + 1 else c.

(** [np.zeros((height, width), dtype=np.float32)]; negative dimensions
    raise [ValueError]. *)
Definition np_zeros (height width : Z) : option grid :=
  if (0 <=? height) && (0 <=? width)
  then Some (replicate (Z.to_nat height) (replicate (Z.to_nat width) 0))
  else None.

(** [heatmap[iy, ix] += 1] *)
Definition add_at (iy ix : Z) (heatmap : grid) : option grid :=
  r ← Py.index (length heatmap) iy;
  row ← heatmap !! r;
  c ← Py.index (length row) ix;
  Some (alter (alter f32_add1 c) r heatmap).

(** [0 <= x < width and 0 <= y < height] *)
Definition in_bounds (width height : Z) (d : float * float) : bool :=
  (Py.int_le 0 (fst d) && Py.lt_int (fst d) width)
  && (Py.int_le 0 (snd d) && Py.lt_int (snd d) height).

(** One iteration of [for x, y in detections]. *)
Definition accumulate_step (width height : Z) (heatmap : grid)
    (d : float * float) : option grid :=
  if in_bounds width height d then
    iy ← Py.int (snd d);
    ix ← Py.int (fst d);
    add_at iy ix heatmap
  else Some heatmap.

Fixpoint accumulate_from (width height : Z) (detections : list (float * float))
    (heatmap : grid) : option grid :=
  match detections with
  | [] => Some heatmap
  | d :: rest =>
      heatmap' ← accumulate_step width height heatmap d;
      accumulate_from width height rest heatmap'
  end.

(** Lines 35-38 of [generate_heatmap]: the grid just before smoothing. *)
Definition accumulate (detections : list (float * float)) (width height : Z)
    : option grid :=
  heatmap ← np_zeros height width;
  accumulate_from width height detections heatmap.

(** *** Vocabulary of the rasterizer's properties *)

(** The detection lands in cell (row [r], column [c]). *)
Definition lands_in (width height : Z) (r c : nat) (d : float * float) : bool :=
  in_bounds width height d
  && bool_decide (Py.floor (snd d) = Some (Z.of_nat r))
  && bool_decide (Py.floor (fst d) = Some (Z.of_nat c)).

(** How many elements of the list satisfy [p]. *)
Fixpoint count_if {A} (p : A → bool) (l : list A) : Z :=
  match l with
  | [] => 0
  | a :: rest => (if p a then 1 else 0) + count_if p rest
  end.

Definition cell (g : grid) (r c : nat) : option Z :=
  row ← g !! r; row !! c.

Definition has_shape (g : grid) (height width : Z) : Prop :=
  Z.of_nat (length g) = height ∧
  ∀ row, row ∈ g → Z.of_nat (length row) = width.

(** The mass of the grid: the sum of all its cells. *)
Definition row_sum (row : list Z) : Z := foldr Z.add 0 row.
Definition grid_sum (g : grid) : Z := foldr (λ row acc, row_sum row + acc) 0 g.

(** Every cell is non-negative. *)
Definition nonneg_grid (g : grid) : Prop := Forall (Forall (λ v, 0 ≤ v)) g.

(** A detection at the corner pixel (0, 0). *)
Definition origin : float * float := (0%float, 0%float).


(** ** Color ramp builder: [create_custom_colormap] *)

(** A row of a [uint8] array with 4 columns: one BGRA entry. *)
Abbreviation entry := (list Z) (only parsing).

(** [a / b] on Python ints (true division); the divisors of the source are
    the non-zero constants 25, 38, 64 and 51. *)
Definition truediv (a b : Z) : float :=
  PrimFloat.div (Py.of_Z a) (Py.of_Z b).

(** [k * v] for a Python float [k] and an int64 array [v]. *)
Definition scale (k : float) (v : list Z) : list float :=
  map (λ z, PrimFloat.mul k (Py.of_Z z)) v.

(** [colormap[i] = (1 - ratio) * lo + ratio * hi]: the float64 row is
    stored into the [uint8] table. *)
Definition blend_entry (ratio : float) (lo hi : list Z) : entry :=
  map Py.to_uint8
    (zip_with PrimFloat.add
       (scale (PrimFloat.sub (Py.of_Z 1) ratio) lo) (scale ratio hi)).

(** [int(255 * p)] *)
Definition level (p : float) : option Z :=
  Py.int (PrimFloat.mul (Py.of_Z 255) p).

(** The body of [for i in range(1, 256)]. *)
Definition ramp_entry (thrs1 thrs2 thrs3 thrs4 : Z)
    (blue green yellow orange red : list Z) (i : Z) : entry :=
  if i <=? thrs1 then
    blend_entry (truediv i thrs1) blue green
  else if i <=? thrs2 then
    blend_entry (truediv (i - thrs1) (thrs2 - thrs1)) green yellow
  else if i <=? thrs3 then
    blend_entry (truediv (i - thrs2) (thrs3 - thrs2)) yellow orange
  else if i <=? thrs4 then
    blend_entry (truediv (i - thrs3) (thrs4 - thrs3)) orange red
  else map Py.wrap_uint8 red.

Definition create_custom_colormap (alpha : float) : option (list entry) :=
  let colormap := replicate 256 [0; 0; 0; 0] in
  let colormap := <[0%nat := [0; 0; 0; 0]]> colormap in
  a ← level alpha;
  let blue := [255; 0; 0; a] in
  let green := [0; 255; 0; a] in
  let yellow := [0; 255; 255; a] in
  let orange := [0; 165; 255; a] in
  let red := [0; 0; 255; a] in
  thrs1 ← level 0.10%float;
  thrs2 ← level 0.25%float;
  thrs3 ← level 0.50%float;
  thrs4 ← level 0.70%float;
  Some (foldl
          (λ colormap i,
             <[Z.to_nat i :=
                 ramp_entry thrs1 thrs2 thrs3 thrs4
                   blue green yellow orange red i]> colormap)
          colormap (seqZ 1 255)).

(** The table once the anchors' alpha [a = int(255 * alpha)] and the four
    thresholds are known. *)
Definition ramp_table (a : Z) : list entry :=
  foldl
    (λ colormap i,
       <[Z.to_nat i :=
           ramp_entry 25 63 127 178
             [255; 0; 0; a] [0; 255; 0; a] [0; 255; 255; a]
             [0; 165; 255; a] [0; 0; 255; a] i]> colormap)
    (<[0%nat := [0; 0; 0; 0]]> (replicate 256 [0; 0; 0; 0])) (seqZ 1 255).

(** The default argument [alpha=0.45]. *)
Definition default_alpha : float := 0.45%float.

(** *** Vocabulary of the ramp's properties *)

(** The alpha component (column 3) of entry [i]. *)
Definition entry_alpha (table : list entry) (i : nat) : option Z :=
  e ← table !! i; e !! 3%nat.

(** [round(v)] for a float, as Python rounds: to the nearest integer,
    ties to even. *)
Definition py_round (x : float) : option Z :=
  match Prim2SF x with
  | S754_zero _ => Some 0
  | S754_finite s m e =>
      if 0 <=? e then Some (Py.mant s m * 2 ^ e)
      else
        let d := 2 ^ (- e) in
        let q := Z.pos m / d in
        let r := Z.pos m mod d in
        let n := if 2 * r <? d then q
                 else if d <? 2 * r then q + 1
                 else if Z.even q then q else q + 1 in
        Some (if s then - n else n)
  | S754_infinity _ | S754_nan => None
  end.

(** The anchor colors of the ramp, in BGR order. *)
Definition cold_bgr : list Z := [255; 0; 0].
Definition green_bgr : list Z := [0; 255; 0].
Definition yellow_bgr : list Z := [0; 255; 255].
Definition orange_bgr : list Z := [0; 165; 255].
Definition red_bgr : list Z := [0; 0; 255].

(** Linear interpolation between two component values by [ratio],
    [(1 - ratio) * lo + ratio * hi] in float64, as the 8-bit component the
    table stores. *)
Definition lerp (ratio : float) (lo hi : Z) : Z :=
  Py.to_uint8
    (PrimFloat.add
       (PrimFloat.mul (PrimFloat.sub 1%float ratio) (Py.of_Z lo))
       (PrimFloat.mul ratio (Py.of_Z hi))).

(** Interpolation between two anchors, component by component. *)
Definition interpolate (ratio : float) (lo hi : list Z) : entry :=
  zip_with (lerp ratio) lo hi.

(** ** Compositor: [overlay_heatmap] *)

(** An image is a [height] x [width] x [channels] array, as nested lists. *)
Abbreviation pixel := (list Z) (only parsing).
Abbreviation image := (list (list (list Z))) (only parsing).

(** OpenCV rejects an empty matrix ([cv2.error]). *)
Definition nonempty {A} (img : list (list A)) : bool :=
  match img with
  | (_ :: _) :: _ => true
  | _ => false
  end.

(** [cv2.cvtColor(img, cv2.COLOR_BGR2BGRA)]: an opaque alpha channel is
    appended to each 3-channel pixel; any other channel count is an
    error. *)
Definition cvtColor_BGR2BGRA (img : image) : option image :=
  if nonempty img then
    mapM (mapM (λ p : pixel,
                  match p with
                  | [b; g; r] => Some [b; g; r; 255]
                  | _ => None
                  end)) img
  else None.

(** [cv2.cvtColor(img, cv2.COLOR_BGRA2BGR)]: the alpha channel of each
    4-channel pixel is dropped. *)
Definition cvtColor_BGRA2BGR (img : image) : option image :=
  if nonempty img then
    mapM (mapM (λ p : pixel,
                  match p with
                  | [b; g; r; _] => Some [b; g; r]
                  | _ => None
                  end)) img
  else None.

(** NumPy broadcasting along one axis: equal lengths pair up, a length-1
    axis is repeated, anything else is a [ValueError]. *)
Definition broadcast {A B C} (f : A → B → option C)
    (xs : list A) (ys : list B) : option (list C) :=
  if decide (length xs = length ys) then
    mapM (λ p, f p.1 p.2) (zip xs ys)
  else
    match xs, ys with
    | [x], _ => mapM (f x) ys
    | _, [y] => mapM (λ x, f x y) xs
    | _, _ => None
    end.

(** [np.expand_dims(heatmap_rgba[:, :, 3] / 255.0, axis=-1)] *)
Definition alpha_plane (heatmap_rgba : image) : option (list (list (list float))) :=
  mapM (mapM (λ p : pixel,
                a ← p !! 3%nat;
                Some [PrimFloat.div (Py.of_Z a) 255%float])) heatmap_rgba.

(** Elementwise product of a [uint8] array with a float64 array. *)
Definition np_mul (img : image) (w : list (list (list float)))
    : option (list (list (list float))) :=
  broadcast (broadcast (broadcast
    (λ v k, Some (PrimFloat.mul (Py.of_Z v) k)))) img w.

(** Elementwise sum of two float64 arrays. *)
Definition np_add (u v : list (list (list float)))
    : option (list (list (list float))) :=
  broadcast (broadcast (broadcast (λ a b, Some (PrimFloat.add a b)))) u v.

(** [1 - heatmap_alpha] *)
Definition one_minus (w : list (list (list float))) : list (list (list float)) :=
  map (map (map (λ k, PrimFloat.sub (Py.of_Z 1) k))) w.

(** [.astype(np.uint8)] *)
Definition astype_uint8 (u : list (list (list float))) : image :=
  map (map (map Py.to_uint8)) u.

Definition overlay_heatmap (rgb_image heatmap_rgba : image) : option image :=
  image_bgra ← cvtColor_BGR2BGRA rgb_image;
  heatmap_alpha ← alpha_plane heatmap_rgba;
  masked_heatmap ← np_mul heatmap_rgba heatmap_alpha;
  masked_image ← np_mul image_bgra (one_minus heatmap_alpha);
  blended ← astype_uint8 <$> np_add masked_heatmap masked_image;
  cvtColor_BGRA2BGR blended.

(** *** Vocabulary of the compositor's properties *)

(** A [height] x [width] array of [uint8] pixels with [channels]
    components, [height] and [width] positive. *)
Definition is_image (channels : nat) (img : image) (height width : nat) : Prop :=
  (0 < height)%nat ∧ (0 < width)%nat ∧
  length img = height ∧
  Forall (λ row : list pixel,
            length row = width ∧
            Forall (λ p : pixel,
                      length p = channels ∧ Forall (λ v, 0 ≤ v < 256) p) row)
         img.

(** The layer's opacity at a pixel, normalized to [0, 1]. *)
Definition layer_alpha (a : Z) : float := PrimFloat.div (Py.of_Z a) 255%float.

(** [layer * layer_alpha + base * (1 - layer_alpha)], truncated to
    8 bits: one component of one output pixel. *)
Definition blend (a : Z) (layer base : Z) : Z :=
  Py.to_uint8
    (PrimFloat.add
       (PrimFloat.mul (Py.of_Z layer) (layer_alpha a))
       (PrimFloat.mul (Py.of_Z base) (PrimFloat.sub 1%float (layer_alpha a)))).

(** The output pixel for a 4-channel layer pixel over a 3-channel base
    pixel. *)
Definition blend_pixel (base layer : pixel) : pixel :=
  match base, layer with
  | [b; g; r], [lb; lg; lr; a] => [blend a lb b; blend a lg g; blend a lr r]
  | _, _ => []
  end.

(** A base pixel paired with the layer pixel at the same position. *)
Definition well_formed_pair (x : list Z * list Z) : Prop :=
  (length x.1 = 3%nat ∧ Forall (λ v, 0 ≤ v < 256) x.1) ∧
  (length x.2 = 4%nat ∧ Forall (λ v, 0 ≤ v < 256) x.2).

(** One-pixel images: a white base, a half-transparent red layer and a
    fully transparent one. *)
Definition white_pixel_image : image := [[[255; 255; 255]]].
Definition red_layer : image := [[[0; 0; 255; 114]]].
Definition clear_layer : image := [[[0; 0; 255; 0]]].

(** The alpha channel of the layer is 0 at every pixel. *)
Definition alpha_zero_everywhere (layer : image) : Prop :=
  Forall (Forall (λ p : pixel, p !! 3%nat = Some 0)) layer.

(** Some pixel of the layer has a non-zero alpha. *)
Definition alpha_nonzero_somewhere (layer : image) : Prop :=
  Exists (Exists (λ p : pixel, ∃ a, p !! 3%nat = Some a ∧ a ≠ 0)) layer.

(** ** Density rasterizer: smoothing, clipping and normalization *)

Abbreviation fgrid := (list (list float)) (only parsing).

(** Rounding of a float64 to the nearest [np.float32] value. *)
Definition to_f32 (x : float) : float :=
  match Prim2SF x with
  | S754_finite s m e =>
      SF2Prim (binary_round_aux 24 128 s (Z.pos m) e loc_Exact)
  | _ => x
  end.

(** [np.clip(heatmap, None, cap_value)]: the elementwise minimum with the
    cap; a NaN stays a NaN. *)
Definition np_clip_max (heatmap : fgrid) (cap_value : Z) : fgrid :=
  map (map (λ v, if PrimFloat.ltb (Py.of_Z cap_value) v
                 then Py.of_Z cap_value else v)) heatmap.

(** Minimum and maximum over the whole grid ([cv::minMaxIdx]), which needs
    at least one element. *)
Definition fmin (a b : float) : float := if PrimFloat.ltb b a then b else a.
Definition fmax (a b : float) : float := if PrimFloat.ltb a b then b else a.

Definition grid_min (g : fgrid) : option float :=
  match concat g with
  | [] => None
  | v :: vs => Some (foldl fmin v vs)
  end.

Definition grid_max (g : fgrid) : option float :=
  match concat g with
  | [] => None
  | v :: vs => Some (foldl fmax v vs)
  end.

Definition DBL_EPSILON : float := 0x1p-52%float.

(** [cv2.normalize(heatmap, None, lo, hi, cv2.NORM_MINMAX)] on a float32
    matrix, after OpenCV's [cv::normalize]: the scale factor is
    [(dmax - dmin) / (smax - smin)] when [smax - smin > DBL_EPSILON] and 0
    otherwise, the shift is [dmin - smin * scale], and every element
    becomes [src * scale + shift]. *)
Definition cv2_normalize_minmax (src : fgrid) (lo hi : Z) : option fgrid :=
  smin ← grid_min src;
  smax ← grid_max src;
  let dmin := Py.of_Z (Z.min lo hi) in
  let dmax := Py.of_Z (Z.max lo hi) in
  let scale :=
    to_f32 (PrimFloat.mul (PrimFloat.sub dmax dmin)
              (if PrimFloat.ltb DBL_EPSILON (PrimFloat.sub smax smin)
               then PrimFloat.div 1%float (PrimFloat.sub smax smin)
               else 0%float)) in
  let shift := PrimFloat.sub (to_f32 dmin) (to_f32 (PrimFloat.mul smin scale)) in
  Some (map (map (λ v, to_f32 (PrimFloat.add (PrimFloat.mul v scale) shift))) src).

Section Rasterizer.

(** [scipy.ndimage.gaussian_filter(heatmap, sigma=sigma)]: the smoothing
    kernel of the SciPy library, a parameter of the model. *)
Variable gaussian_filter : fgrid → Z → fgrid.

Definition generate_heatmap (detections : list (float * float))
    (width height sigma cap_value : Z) : option grid :=
  counts ← accumulate detections width height;
  let heatmap := map (map Py.of_Z) counts in
  let heatmap := gaussian_filter heatmap sigma in
  let heatmap := np_clip_max heatmap cap_value in
  heatmap ← cv2_normalize_minmax heatmap 0 255;
  Some (map (map Py.to_uint8) heatmap).

End Rasterizer.

(** The default arguments [sigma=15, cap_value=100]. *)
Definition default_sigma : Z := 15.
Definition default_cap_value : Z := 100.

(** A smoothing filter that leaves the grid as it is (the limit of a
    vanishing kernel width). *)
Definition no_smoothing (heatmap : fgrid) (sigma : Z) : fgrid := heatmap.

(** The all-zero float grid and the all-zero 8-bit grid. *)
Definition fzeros (height width : Z) : fgrid :=
  replicate (Z.to_nat height) (replicate (Z.to_nat width) 0%float).

Definition zeros (height width : Z) : grid :=
  replicate (Z.to_nat height) (replicate (Z.to_nat width) 0).

(** ** Detection extractor: [parse_geojson] *)

(** What [json.load] returns: the Python value of a JSON document.  A
    [dict] keeps its keys in insertion order. *)
Inductive json :=
| JNone
| JBool (b : bool)
| JInt (n : Z)
| JFloat (x : float)
| JStr (s : string)
| JList (items : list json)
| JDict (members : list (string * json)).

Inductive exn := AttributeError | TypeError.

Inductive result (A : Type) :=
| Ok (a : A)
| Raise (e : exn).
Arguments Ok {A} a.
Arguments Raise {A} e.

Definition bind {A B} (r : result A) (k : A → result B) : result B :=
  match r with
  | Ok a => k a
  | Raise e => Raise e
  end.

(** [d.get(key, default)]: only a [dict] has the method. *)
Definition dict_get (key : string) (default : json) (d : json) : result json :=
  match d with
  | JDict members =>
      Ok (match find (λ kv, String.eqb (fst kv) key) members with
          | Some kv => snd kv
          | None => default
          end)
  | _ => Raise AttributeError
  end.

(** [for item in v]: a list yields its items, a dict its keys, a string
    its characters; anything else is not iterable. *)
Definition iterate (v : json) : result (list json) :=
  match v with
  | JList items => Ok items
  | JDict members => Ok (map (λ kv, JStr (fst kv)) members)
  | JStr s => Ok (map (λ c, JStr (String c EmptyString)) (list_ascii_of_string s))
  | _ => Raise TypeError
  end.

(** [s.split(sep)] for a one-character separator. *)
Fixpoint split (sep : ascii) (s : string) : list string :=
  match s with
  | EmptyString => [EmptyString]
  | String c rest =>
      if Ascii.eqb c sep then EmptyString :: split sep rest
      else match split sep rest with
           | part :: parts => String c part :: parts
           | [] => [String c EmptyString]
           end
  end.

(** [s.lower()]: the letters A-Z are lowered.  No character outside A-Z
    lowers to a letter of "person", so on the comparison with that literal
    the model agrees with Python's Unicode lowering. *)
Definition lower_ascii (c : ascii) : ascii :=
  let n := nat_of_ascii c in
  if ((65 <=? n) && (n <=? 90))%nat then ascii_of_nat (n + 32) else c.

Fixpoint lower (s : string) : string :=
  match s with
  | EmptyString => EmptyString
  | String c rest => String (lower_ascii c) (lower rest)
  end.

Definition pipe : ascii := "|"%char.

Section Extractor.

(** The builtin [float(s)] on a string: [None] is its [ValueError]. *)
Variable py_float : string → option float.

(** The body of [for msg in deepstream_msgs]: the centroid the message
    contributes, if any. *)
Definition parse_msg (msg : json) : result (option (float * float)) :=
  match msg with
  | JStr s =>
      let parts := split pipe s in
      if negb (length parts =? 7)%nat then Ok None
      else
        match py_float (nth 1 parts EmptyString),
              py_float (nth 2 parts EmptyString),
              py_float (nth 3 parts EmptyString),
              py_float (nth 4 parts EmptyString) with
        | Some x_min, Some y_min, Some x_max, Some y_max =>
            let obj_type := nth 5 parts EmptyString in
            if String.eqb (lower obj_type) "person" then
              let x_center := PrimFloat.div (PrimFloat.add x_min x_max) (Py.of_Z 2) in
              let y_center := PrimFloat.div (PrimFloat.add y_min y_max) (Py.of_Z 2) in
              Ok (Some (x_center, y_center))
            else Ok None
        | _, _, _, _ => Ok None
        end
  | _ => Raise AttributeError
  end.

Fixpoint parse_msgs (msgs : list json) (person_detections : list (float * float))
    : result (list (float * float)) :=
  match msgs with
  | [] => Ok person_detections
  | msg :: rest =>
      bind (parse_msg msg) (λ d,
        parse_msgs rest
          (match d with
           | Some c => person_detections ++ [c]
           | None => person_detections
           end))
  end.

(** The body of [for hit in hits]. *)
Definition parse_hit (hit : json) (person_detections : list (float * float))
    : result (list (float * float)) :=
  bind (dict_get "fields" (JDict []) hit) (λ fields,
  bind (dict_get "deepstream-msg" (JList []) fields) (λ deepstream_msgs,
  bind (iterate deepstream_msgs) (λ msgs,
  parse_msgs msgs person_detections))).

Fixpoint parse_hits (hits : list json) (person_detections : list (float * float))
    : result (list (float * float)) :=
  match hits with
  | [] => Ok person_detections
  | hit :: rest =>
      bind (parse_hit hit person_detections) (parse_hits rest)
  end.

(** [parse_geojson] on the loaded document [data]. *)
Definition parse_geojson (data : json) : result (list (float * float)) :=
  bind (dict_get "hits" (JDict []) data) (λ outer,
  bind (dict_get "hits" (JList []) outer) (λ hits,
  bind (iterate hits) (λ hits,
  parse_hits hits []))).

End Extractor.

(** A reader of plain decimal numerals of at most 15 digits, on which it
    agrees with [float]; it rejects every other string. *)
Fixpoint digits_value (s : string) (acc : Z) : option Z :=
  match s with
  | EmptyString => Some acc
  | String c rest =>
      let n := nat_of_ascii c in
      if ((48 <=? n) && (n <=? 57))%nat
      then digits_value rest (10 * acc + Z.of_nat (n - 48))
      else None
  end.

Definition float_of_digits (s : string) : option float :=
  if ((1 <=? String.length s) && (String.length s <=? 15))%nat
  then Py.of_Z <$> digits_value s 0
  else None.

(** The document shape of the service's messages: a list of hits, each
    with a ["deepstream-msg"] field holding message strings. *)
Definition hit_of (msgs : list string) : json :=
  JDict [("fields"%string,
          JDict [("deepstream-msg"%string, JList (map JStr msgs))])].

Definition document_of_hits (hits : list (list string)) : json :=
  JDict [("hits"%string, JDict [("hits"%string, JList (map hit_of hits))])].

(** A document whose only messages are [msgs], in one hit. *)
Definition document (msgs : list string) : json := document_of_hits [msgs].

Section ExtractorSpec.

Variable py_float : string → option float.

(** The centroid a message contributes, in the words of the extraction
    contract: the message must split into exactly 7 fields (identifier,
    x_min, y_min, x_max, y_max, class label, region tag), the four
    coordinates must parse, and the label must equal "person" up to
    case. *)
Definition message_centroid (msg : string) : option (float * float) :=
  match split pipe msg with
  | [_; x_min; y_min; x_max; y_max; label; _] =>
      match py_float x_min, py_float y_min, py_float x_max, py_float y_max with
      | Some x0, Some y0, Some x1, Some y1 =>
          if String.eqb (lower label) (lower "person")
          then Some (PrimFloat.div (PrimFloat.add x0 x1) 2%float,
                     PrimFloat.div (PrimFloat.add y0 y1) 2%float)
          else None
      | _, _, _, _ => None
      end
  | _ => None
  end.

End ExtractorSpec.

(** The alpha component the loop stores in entry [i], for anchors of
    alpha [a]: the interpolation of [a] with itself, or [a] past the last
    threshold. *)
Definition ramp_alpha (a i : Z) : Z :=
  if i <=? 25 then lerp (truediv i 25) a a
  else if i <=? 63 then lerp (truediv (i - 25) (63 - 25)) a a
  else if i <=? 127 then lerp (truediv (i - 63) (127 - 63)) a a
  else if i <=? 178 then lerp (truediv (i - 127) (178 - 127)) a a
  else Py.wrap_uint8 a.

(** ** Layer construction: [apply_custom_colormap] *)

(** [colormap[heatmap]]: indexing the table with the integer array
    [heatmap] replaces every intensity by the table entry at that index; an
    index outside the table is an [IndexError]. *)
Definition apply_custom_colormap (heatmap : grid) (colormap : list entry)
    : option image :=
  mapM (mapM (λ v, i ← Py.index (length colormap) v; colormap !! i)) heatmap.

Section Pipeline.

(** [scipy.ndimage.gaussian_filter], as in the rasterizer. *)
Variable gaussian_filter : fgrid → Z → fgrid.

(** The four pipeline calls of the endpoint (api_main.py, lines 85-88), at
    the canonical size 708 x 480 and with every default argument. *)
Definition render (img : image) (detections : list (float * float))
    : option image :=
  heatmap ← generate_heatmap gaussian_filter detections 708 480
              default_sigma default_cap_value;
  colormap ← create_custom_colormap default_alpha;
  heatmap_rgba ← apply_custom_colormap heatmap colormap;
  overlay_heatmap img heatmap_rgba.

End Pipeline.

(** A [height] x [width] array of rows. *)
Definition rectangular {A} (g : list (list A)) (height width : nat) : Prop :=
  length g = height ∧ Forall (λ row, length row = width) g.

(** The filter returns an array of the shape it was given. *)
Definition shape_preserving (filter : fgrid → Z → fgrid) : Prop :=
  ∀ g sigma height width,
    rectangular g height width → rectangular (filter g sigma) height width.

(** The pixel at row [r], column [c]. *)
Definition pixel_at (img : image) (r c : nat) : option pixel :=
  row ← img !! r; row !! c.

(** The alpha channel of the layer is 255 at every pixel. *)
Definition alpha_opaque_everywhere (layer : image) : Prop :=
  Forall (Forall (λ p : pixel, p !! 3%nat = Some 255)) layer.

(** [img[:, :, :3]]: the layer without its alpha channel. *)
Definition drop_alpha (layer : image) : image := map (map (take 3)) layer.

(** ** Message strings *)

(** ["|".join(fields)] *)
Fixpoint join (fields : list string) : string :=
  match fields with
  | [] => EmptyString
  | [field] => field
  | field :: rest => String.append field (String pipe (join rest))
  end.

(** How many times the character occurs in the string. *)
Fixpoint count_char (c : ascii) (s : string) : nat :=
  match s with
  | EmptyString => 0
  | String c' rest => (if Ascii.eqb c' c then 1 else 0) + count_char c rest
  end.

(** A document whose hits carry arbitrary JSON values as messages. *)
Definition hit_of_values (msgs : list json) : json :=
  JDict [("fields"%string, JDict [("deepstream-msg"%string, JList msgs)])].

Definition document_of_values (hits : list (list json)) : json :=
  JDict [("hits"%string,
          JDict [("hits"%string, JList (map hit_of_values hits))])].

Definition is_string (v : json) : bool :=
  match v with JStr _ => true | _ => false end.

(** ** Documents of the service *)

(** The value of the member named [key] of a [dict], [None] when the
    [dict] has no such member. *)
Definition member (key : string) (members : list (string * json))
    : option json :=
  snd <$> find (λ kv, String.eqb (fst kv) key) members.

(** The message strings a hit carries: the hit is an object; its
    ["fields"] member, when present, is an object; the ["deepstream-msg"]
    member of that, when present, is an array of strings.  A missing
    member gives no message.  Other members are free. *)
Inductive hit_messages : json → list string → Prop :=
| hit_without_fields (hit : list (string * json)) :
    member "fields" hit = None →
    hit_messages (JDict hit) []
| hit_without_messages (hit fields : list (string * json)) :
    member "fields" hit = Some (JDict fields) →
    member "deepstream-msg" fields = None →
    hit_messages (JDict hit) []
| hit_with_messages (hit fields : list (string * json)) (msgs : list string) :
    member "fields" hit = Some (JDict fields) →
    member "deepstream-msg" fields = Some (JList (map JStr msgs)) →
    hit_messages (JDict hit) msgs.

(** The messages of a document, hit by hit: the document is an object;
    its ["hits"] member, when present, is an object; the ["hits"] member of
    that, when present, is an array of hits. *)
Inductive document_messages : json → list (list string) → Prop :=
| document_without_hits (top : list (string * json)) :
    member "hits" top = None →
    document_messages (JDict top) []
| document_without_inner_hits (top inner : list (string * json)) :
    member "hits" top = Some (JDict inner) →
    member "hits" inner = None →
    document_messages (JDict top) []
| document_with_hits (top inner : list (string * json)) (hits : list json)
    (msgss : list (list string)) :
    member "hits" top = Some (JDict inner) →
    member "hits" inner = Some (JList hits) →
    Forall2 hit_messages hits msgss →
    document_messages (JDict top) msgss.

(** The character is the letter [l] or its capital [u]. *)
Definition either_case (l u c : ascii) : bool :=
  Ascii.eqb c l || Ascii.eqb c u.

(** The label spells "person", each letter in either case. *)
Definition person_any_case (label : string) : bool :=
  match list_ascii_of_string label with
  | [c1; c2; c3; c4; c5; c6] =>
      either_case "p" "P" c1 && either_case "e" "E" c2
      && either_case "r" "R" c3 && either_case "s" "S" c4
      && either_case "o" "O" c5 && either_case "n" "N" c6
  | _ => false
  end.

(** A document with members beside the ones extraction reads, a hit
    without ["fields"], one without ["deepstream-msg"], and messages of
    which only the first is a well-formed person record. *)
Definition sample_document : json :=
  JDict
    [("took"%string, JInt 3);
     ("hits"%string,
      JDict
        [("total"%string, JInt 3);
         ("hits"%string,
          JList
            [JDict [("_id"%string, JStr "a");
                    ("fields"%string,
                     JDict [("deepstream-msg"%string,
                             JList (map JStr
                                      ["1|100|100|200|200|PeRsOn|zone";
                                       "2|100|100|200|person|zone";
                                       "3|100|left|200|200|person|zone";
                                       "4|100|100|200|200|car|zone"]%string))])];
             JDict [("_id"%string, JStr "b")];
             JDict [("fields"%string, JDict [("time"%string, JInt 7)])]])])].

Definition sample_messages : list (list string) :=
  [["1|100|100|200|200|PeRsOn|zone"; "2|100|100|200|person|zone";
    "3|100|left|200|200|person|zone"; "4|100|100|200|200|car|zone"]%string;
   []; []].

(** ** The endpoint: api_main.py *)

Definition MAX_JSON_SIZE : Z := 15000000.
Definition MAX_IMAGE_SIZE : Z := 5000000.

(** The exceptions the endpoint distinguishes: FastAPI's [HTTPException],
    [ValueError] (and its subclasses), and every other exception; the
    string is [str(e)]. *)
Inductive error :=
| HTTPException (status_code : Z) (detail : string)
| ValueError (msg : string)
| OtherError (msg : string).

Inductive outcome (A : Type) :=
| Return (a : A)
| Throw (e : error).
Arguments Return {A} a.
Arguments Throw {A} e.

(** What a library call gives: its value, or the exception it raises, a
    [ValueError] (or a subclass of it) or another exception that is not
    FastAPI's; the string is [str(e)]. *)
Inductive call (A : Type) :=
| Gives (a : A)
| RaisesValueError (msg : string)
| RaisesOther (msg : string).
Arguments Gives {A} a.
Arguments RaisesValueError {A} msg.
Arguments RaisesOther {A} msg.

(** What opening the uploaded JSON and [json.load] give: the document, a
    [ValueError] (a [JSONDecodeError] or a [UnicodeDecodeError]) or another
    exception. *)
Inductive loaded :=
| Loaded (data : json)
| LoadValueError (msg : string)
| LoadOtherError (msg : string).

(** The fields of FastAPI's [UploadFile] the endpoint reads; [file] is
    what [file.read()] returns. *)
Record UploadFile := {
  content_type : option string;
  filename : option string;
  file : list Byte.byte
}.

(** [s.endswith(suffix)] *)
Definition endswith (s suffix : string) : bool :=
  (String.length suffix <=? String.length s)%nat
  && String.eqb
       (String.substring (String.length s - String.length suffix)
          (String.length suffix) s)
       suffix.

(** [needle in s] *)
Fixpoint contains (needle s : string) : bool :=
  String.prefix needle s
  || match s with
     | EmptyString => false
     | String _ rest => contains needle rest
     end.

Section Endpoint.

Variable py_float : string → option float.
Variable gaussian_filter : fgrid → Z → fgrid.

(** [cv2.imdecode(np.frombuffer(data, np.uint8), cv2.IMREAD_COLOR)]:
    it returns [None] when the bytes are not an image, and raises on some
    buffers (OpenCV's [cv2.error] on an empty one). *)
Variable imdecode : list Byte.byte → call (option image).

(** [cv2.resize(img, (708, 480))] *)
Variable resize : image → call image.

(** Writing the bytes to a temporary file, opening it and [json.load]. *)
Variable json_load : list Byte.byte → loaded.

(** [str(e)] of an exception [parse_geojson] lets escape, and of one
    escaping the four pipeline calls. *)
Variable exn_text : exn → string.
Variable pipeline_text : string.

(** [cv2.imencode(".png", img)[1].tobytes()] *)
Variable imencode : image → call (list Byte.byte).

Definition process_uploaded_files (image_file json_file : UploadFile)
    : outcome (image * list (float * float)) :=
  let json_content := file json_file in
  if MAX_JSON_SIZE <? Z.of_nat (length json_content) then
    Throw (ValueError "JSON file too large (max 15000000 bytes allowed)")
  else
    let image_data := file image_file in
    if MAX_IMAGE_SIZE <? Z.of_nat (length image_data) then
      Throw (ValueError "Image file too large (max 5000000 bytes allowed)")
    else
      match imdecode image_data with
      | RaisesValueError msg => Throw (ValueError msg)
      | RaisesOther msg => Throw (OtherError msg)
      | Gives None => Throw (ValueError "Invalid image file")
      | Gives (Some img) =>
          match resize img with
          | RaisesValueError msg => Throw (ValueError msg)
          | RaisesOther msg => Throw (OtherError msg)
          | Gives img =>
              match json_load json_content with
              | LoadValueError msg => Throw (ValueError msg)
              | LoadOtherError msg => Throw (OtherError msg)
              | Loaded data =>
                  match parse_geojson py_float data with
                  | Raise e => Throw (OtherError (exn_text e))
                  | Ok detections => Return (img, detections)
                  end
              end
          end
      end.

(** The body of the endpoint's outer [try]. *)
Definition overlay_request (image json_data : UploadFile)
    : outcome (list Byte.byte) :=
  match content_type image with
  | None => Throw (OtherError "'NoneType' object has no attribute 'startswith'")
  | Some ct =>
      if negb (String.prefix "image/" ct) then
        Throw (HTTPException 400 "Invalid image file type")
      else
        match filename json_data with
        | None => Throw (OtherError "'NoneType' object has no attribute 'endswith'")
        | Some name =>
            if negb (endswith name ".json") then
              Throw (HTTPException 400 "JSON file required")
            else
              match process_uploaded_files image json_data with
              | Throw (ValueError msg) =>
                  if contains "too large" (lower msg)
                  then Throw (HTTPException 413 msg)
                  else Throw (ValueError msg)
              | Throw e => Throw e
              | Return (img, detections) =>
                  if (length detections =? 0)%nat then
                    Throw (HTTPException 422
                             "No person detections found in JSON data")
                  else
                    match render gaussian_filter img detections with
                    | None => Throw (OtherError pipeline_text)
                    | Some result_image =>
                        match imencode result_image with
                        | Gives content => Return content
                        | RaisesValueError msg => Throw (ValueError msg)
                        | RaisesOther msg => Throw (OtherError msg)
                        end
                    end
              end
        end
  end.

(** [generate_heatmap_overlay]: an [HTTPException] passes, every other
    exception becomes a 500. *)
Definition generate_heatmap_overlay (image json_data : UploadFile)
    : outcome (list Byte.byte) :=
  match overlay_request image json_data with
  | Return content => Return content
  | Throw (HTTPException status_code detail) =>
      Throw (HTTPException status_code detail)
  | Throw (ValueError msg) | Throw (OtherError msg) =>
      Throw (HTTPException 500 (String.append "Processing error: " msg))
  end.

End Endpoint.

(** The two checks on the declared type and name of the uploads pass. *)
Definition accepted_names (image json_data : UploadFile) : Prop :=
  (∃ ct, content_type image = Some ct ∧ String.prefix "image/" ct = true) ∧
  (∃ name, filename json_data = Some name ∧ endswith name ".json" = true).

(** The status codes the endpoint answers a failed request with. *)
Definition endpoint_status (status_code : Z) : Prop :=
  status_code = 400 ∨ status_code = 413 ∨ status_code = 422 ∨ status_code = 500.

(** Uploads for examples: an image part (empty, and of one byte) and a
    JSON part with accepted type and name, and a JSON part of 15000001
    bytes. *)
Definition small_image : UploadFile :=
  {| content_type := Some "image/png"%string;
     filename := Some "test.png"%string; file := [] |}.
Definition small_json : UploadFile :=
  {| content_type := Some "application/json"%string;
     filename := Some "test.json"%string; file := [] |}.
Definition large_json : UploadFile :=
  {| content_type := Some "application/json"%string;
     filename := Some "large.json"%string;
     file := replicate (Z.to_nat 15000001) Byte.x00 |}.
Definition unreadable_image : UploadFile :=
  {| content_type := Some "image/png"%string;
     filename := Some "test.png"%string; file := [Byte.x00] |}.

(** A decoder for examples that finds no image in any upload and, like
    OpenCV's, raises on an empty buffer. *)
Definition decode_nothing (data : list Byte.byte) : call (option image) :=
  match data with
  | [] => RaisesOther "imdecode: the buffer is empty"
  | _ => Gives None
  end.

(** A decoder and a resizer for examples: every upload decodes, and
    resizing gives a white 708 x 480 image. *)
Definition white_canvas : image := replicate 480 (replicate 708 [255; 255; 255]).
Definition decode_any (data : list Byte.byte) : call (option image) :=
  Gives (Some [[[0; 0; 0]]]).
Definition resize_to_canvas (img : image) : call image := Gives white_canvas.
Definition load_nothing (data : list Byte.byte) : loaded := Loaded (JDict []).
Definition no_text (e : exn) : string := EmptyString.
Definition encode_nothing (img : image) : call (list Byte.byte) := Gives [].

(** * Properties *)

(** ** Floats against integers *)

Lemma pow2_pos (k : Z) : 0 ≤ k → 0 < 2 ^ k.
Proof. intros. apply Z.pow_pos_nonneg; lia. Qed.

(** Inside [0 <= x < n], [int(x)] is defined, equals [floor(x)] and is a
    valid index below [n]. *)
Lemma int_in_range (x : float) (n : Z) :
  Py.int_le 0 x = true → Py.lt_int x n = true →
  ∃ k, Py.int x = Some k ∧ Py.floor x = Some k ∧ 0 ≤ k < n.
Proof.
  unfold Py.int_le, Py.lt_int, Py.cmp, Py.int, Py.int_sf, Py.floor.
  destruct (Prim2SF x) as [s|s| |s m e]; try discriminate.
  - intros _. destruct (Z.compare_spec 0 n); try discriminate.
    exists 0. repeat split; try reflexivity; lia.
  - destruct s; discriminate.
  - destruct (0 <=? e) eqn:He.
    + destruct (Z.compare_spec (Py.mant s m * 2 ^ e) 0); try discriminate;
        destruct (Z.compare_spec (Py.mant s m * 2 ^ e) n); try discriminate;
        intros _ _; eexists; repeat split; try reflexivity; lia.
    + apply Z.leb_gt in He.
      assert (Hp : 0 < 2 ^ (- e)) by (apply pow2_pos; lia).
      rewrite Z.mul_0_l.
      destruct (Z.compare_spec (Py.mant s m) 0); try discriminate;
        destruct (Z.compare_spec (Py.mant s m) (n * 2 ^ (- e))); try discriminate;
        intros _ _; exists (Py.mant s m / 2 ^ (- e));
        (split; [f_equal; apply Z.quot_div_nonneg; lia|]);
        (split; [reflexivity|]);
        (split; [apply Z.div_pos; lia | apply Z.div_lt_upper_bound; lia]).
Qed.

Lemma index_in_range (len : nat) (i : Z) :
  0 ≤ i < Z.of_nat len → Py.index len i = Some (Z.to_nat i).
Proof.
  intros H. unfold Py.index.
  assert (E1 : (0 <=? i) = true) by (apply Z.leb_le; lia).
  assert (E2 : (i <? Z.of_nat len) = true) by (apply Z.ltb_lt; lia).
  by rewrite E1, E2.
Qed.

(** ** The accumulation loop *)

Lemma has_shape_lookup (g : grid) (h w : Z) (r : nat) (row : list Z) :
  has_shape g h w → g !! r = Some row → Z.of_nat (length row) = w.
Proof.
  intros [_ Hrows] Hr. apply Hrows. by eapply list_elem_of_lookup_2.
Qed.

Lemma has_shape_alter (g : grid) (h w : Z) (f : Z → Z) (r c : nat) :
  has_shape g h w → has_shape (alter (alter f c) r g) h w.
Proof.
  intros [Hlen Hrows]. split; [by rewrite length_alter|].
  intros row Hrow. apply list_elem_of_lookup in Hrow as [i Hi].
  destruct (decide (i = r)) as [->|Hne].
  - rewrite list_lookup_alter_eq in Hi.
    destruct (g !! r) as [row0|] eqn:E; simpl in Hi; [|done].
    injection Hi as <-. rewrite length_alter.
    apply Hrows. by eapply list_elem_of_lookup_2.
  - rewrite list_lookup_alter_ne in Hi by done.
    apply Hrows. by eapply list_elem_of_lookup_2.
Qed.

Lemma np_zeros_shape (h w : Z) :
  0 ≤ h → 0 ≤ w →
  np_zeros h w = Some (zeros h w) ∧ has_shape (zeros h w) h w.
Proof.
  intros Hh Hw. unfold np_zeros, zeros.
  assert (E1 : (0 <=? h) = true) by (apply Z.leb_le; lia).
  assert (E2 : (0 <=? w) = true) by (apply Z.leb_le; lia).
  rewrite E1, E2. split; [done|]. split.
  - rewrite length_replicate. lia.
  - intros row Hrow. apply elem_of_replicate in Hrow as [-> _].
    rewrite length_replicate. lia.
Qed.

Lemma cell_zeros (h w : Z) (r c : nat) :
  Z.of_nat r < h → Z.of_nat c < w → cell (zeros h w) r c = Some 0.
Proof.
  intros Hr Hc. unfold cell, zeros.
  rewrite lookup_replicate_2 by lia. simpl.
  by rewrite lookup_replicate_2 by lia.
Qed.

Lemma cell_alter (g : grid) (f : Z → Z) (r c r' c' : nat) :
  cell (alter (alter f c) r g) r' c'
  = (if decide (r' = r ∧ c' = c) then f else id) <$> cell g r' c'.
Proof.
  unfold cell. destruct (decide (r' = r)) as [->|Hr].
  - rewrite list_lookup_alter_eq. destruct (g !! r) as [row|]; simpl; [|done].
    destruct (decide (c' = c)) as [->|Hc].
    + rewrite list_lookup_alter_eq. rewrite decide_True by done.
      by destruct (row !! c).
    + rewrite list_lookup_alter_ne by done. rewrite decide_False by tauto.
      by destruct (row !! c').
  - rewrite list_lookup_alter_ne by done. rewrite decide_False by tauto.
    destruct (g !! r') as [row|]; simpl; [|done]. by destruct (row !! c').
Qed.

Lemma count_if_nonneg {A} (p : A → bool) (l : list A) : 0 ≤ count_if p l.
Proof. induction l as [|a l IH]; simpl; [lia|]. destruct (p a); lia. Qed.

Lemma count_if_app {A} (p : A → bool) (l1 l2 : list A) :
  count_if p (l1 ++ l2) = count_if p l1 + count_if p l2.
Proof. induction l1 as [|a l1 IH]; simpl; [lia|]. rewrite IH. lia. Qed.

Lemma count_if_replicate {A} (p : A → bool) (n : nat) (a : A) :
  count_if p (replicate n a) = if p a then Z.of_nat n else 0.
Proof.
  induction n as [|n IH]; simpl; [by destruct (p a)|].
  rewrite IH. destruct (p a); lia.
Qed.

(** An in-bounds detection has a cell of the grid: the one at its floored
    coordinates. *)
Lemma in_bounds_lands (w h : Z) (d : float * float) :
  in_bounds w h d = true →
  ∃ r c : nat,
    (Z.of_nat r < h ∧ Z.of_nat c < w) ∧
    Py.int (snd d) = Some (Z.of_nat r) ∧ Py.int (fst d) = Some (Z.of_nat c) ∧
    Py.floor (snd d) = Some (Z.of_nat r) ∧ Py.floor (fst d) = Some (Z.of_nat c).
Proof.
  unfold in_bounds. rewrite !andb_true_iff. intros [[Hx0 Hxw] [Hy0 Hyh]].
  destruct (int_in_range _ _ Hx0 Hxw) as (kx & Hix & Hfx & Hkx).
  destruct (int_in_range _ _ Hy0 Hyh) as (ky & Hiy & Hfy & Hky).
  exists (Z.to_nat ky), (Z.to_nat kx).
  rewrite !Z2Nat.id by lia. auto with lia.
Qed.

(** One iteration of the loop: an out-of-bounds detection leaves the grid
    as it is; an in-bounds one updates the cell at its floored coordinates,
    and the index is never out of range. *)
Lemma accumulate_step_spec (w h : Z) (g : grid) (d : float * float) :
  has_shape g h w →
  (in_bounds w h d = false ∧ accumulate_step w h g d = Some g) ∨
  (in_bounds w h d = true ∧
   ∃ (r0 c0 : nat) (v : Z),
     cell g r0 c0 = Some v ∧
     Py.floor (snd d) = Some (Z.of_nat r0) ∧
     Py.floor (fst d) = Some (Z.of_nat c0) ∧
     accumulate_step w h g d = Some (alter (alter f32_add1 c0) r0 g)).
Proof.
  intros [Hlen Hrows]. unfold accumulate_step.
  destruct (in_bounds w h d) eqn:Hb; [right|left; done].
  split; [done|].
  destruct (in_bounds_lands _ _ _ Hb) as (r0 & c0 & [Hr0 Hc0] & Hiy & Hix & Hfy & Hfx).
  destruct (lookup_lt_is_Some_2 g r0) as [row Hrow]; [lia|].
  assert (Hw : Z.of_nat (length row) = w)
    by (apply Hrows; by eapply list_elem_of_lookup_2).
  destruct (lookup_lt_is_Some_2 row c0) as [v Hv]; [lia|].
  exists r0, c0, v. split; [unfold cell; by rewrite Hrow|].
  split; [done|]. split; [done|].
  rewrite Hiy, Hix. simpl. unfold add_at.
  rewrite index_in_range by lia. simpl. rewrite Nat2Z.id, Hrow. simpl.
  rewrite index_in_range by lia. simpl. by rewrite Nat2Z.id.
Qed.

Lemma accumulate_step_cell (w h : Z) (g : grid) (d : float * float) :
  has_shape g h w →
  ∃ g', accumulate_step w h g d = Some g' ∧ has_shape g' h w ∧
    ∀ r c, cell g' r c
           = (if lands_in w h r c d then f32_add1 else id) <$> cell g r c.
Proof.
  intros Hg. unfold lands_in.
  destruct (accumulate_step_spec w h g d Hg)
    as [[Hb ->]|[Hb (r0 & c0 & v & Hv & Hfy & Hfx & ->)]]; rewrite Hb; simpl.
  - exists g. split; [done|]. split; [done|].
    intros r c. by rewrite option_fmap_id.
  - eexists. split; [reflexivity|]. split; [by apply has_shape_alter|].
    intros r c. rewrite cell_alter, Hfy, Hfx.
    destruct (decide (r = r0 ∧ c = c0)) as [[-> ->]|Hne].
    + by rewrite !bool_decide_eq_true_2.
    + destruct (decide (r = r0)) as [->|Hr].
      * rewrite (bool_decide_eq_false_2 (Some (Z.of_nat c0) = _)); [|intros [=]; lia].
        by rewrite andb_false_r.
      * rewrite (bool_decide_eq_false_2 (Some (Z.of_nat r0) = _)); [|intros [=]; lia].
        done.
Qed.

(** The closed form of the loop: every cell ends at its initial value plus
    the number of detections that land in it, stopped at the float32
    limit. *)
Lemma accumulate_from_cell (w h : Z) (ds : list (float * float)) :
  ∀ g, has_shape g h w →
  ∃ g', accumulate_from w h ds g = Some g' ∧ has_shape g' h w ∧
    ∀ r c, cell g' r c
           = (λ v, Z.max v (Z.min (v + count_if (lands_in w h r c) ds) f32_limit))
               <$> cell g r c.
Proof.
  induction ds as [|d ds IH]; intros g Hg; simpl.
  - exists g. split; [done|]. split; [done|]. intros r c.
    destruct (cell g r c) as [v|]; simpl; [|done]. f_equal. lia.
  - destruct (accumulate_step_cell w h g d Hg) as (g1 & -> & Hg1 & Hc1). simpl.
    destruct (IH g1 Hg1) as (g' & -> & Hg' & Hc'). exists g'.
    split; [done|]. split; [done|]. intros r c.
    rewrite Hc', Hc1. destruct (cell g r c) as [v|]; simpl; [|done]. f_equal.
    pose proof (count_if_nonneg (lands_in w h r c) ds).
    unfold f32_add1, f32_limit.
    destruct (lands_in w h r c d); simpl; [|lia].
    destruct (v <? 16777216) eqn:E; [apply Z.ltb_lt in E|apply Z.ltb_ge in E]; lia.
Qed.

(** *** Mass of the grid *)

Lemma row_sum_alter (row : list Z) (f : Z → Z) (c : nat) (v : Z) :
  row !! c = Some v → row_sum (alter f c row) = row_sum row - v + f v.
Proof.
  revert c. induction row as [|x row IH]; intros [|c] Hc; simplify_eq/=.
  - lia.
  - change (list_alter f c row) with (alter f c row).
    rewrite (IH c) by done. unfold row_sum. simpl. lia.
Qed.

Lemma grid_sum_alter (g : grid) (f : Z → Z) (r c : nat) (v : Z) :
  cell g r c = Some v →
  grid_sum (alter (alter f c) r g) = grid_sum g - v + f v.
Proof.
  unfold cell. revert r. induction g as [|row g IH]; intros [|r] Hc; simplify_eq/=.
  - change (list_alter f c row) with (alter f c row).
    rewrite (row_sum_alter _ _ _ v) by done. lia.
  - change (list_alter (alter f c) r g) with (alter (alter f c) r g).
    rewrite (IH r) by done. lia.
Qed.

Lemma row_sum_bounds (row : list Z) :
  Forall (λ v, 0 ≤ v) row →
  0 ≤ row_sum row ∧ ∀ c v, row !! c = Some v → v ≤ row_sum row.
Proof.
  induction 1 as [|x row Hx Hrow [IH0 IH]]; unfold row_sum; simpl.
  - split; [lia|]. intros c v Hc. done.
  - fold (row_sum row). split; [lia|].
    intros [|c] v Hc; simplify_eq/=; [lia|]. specialize (IH c v Hc). lia.
Qed.

Lemma grid_sum_bounds (g : grid) :
  nonneg_grid g →
  0 ≤ grid_sum g ∧ ∀ r c v, cell g r c = Some v → v ≤ grid_sum g.
Proof.
  unfold cell. induction 1 as [|row g Hrow Hg [IH0 IH]]; simpl.
  - split; [lia|]. intros r c v Hc. done.
  - destruct (row_sum_bounds row Hrow) as [Hr0 Hr]. split; [lia|].
    intros [|r] c v Hc; simpl in Hc.
    + specialize (Hr c v Hc). lia.
    + specialize (IH r c v Hc). lia.
Qed.

Lemma nonneg_grid_alter (g : grid) (r c : nat) :
  nonneg_grid g → nonneg_grid (alter (alter f32_add1 c) r g).
Proof.
  intros Hg. apply Forall_alter; [done|].
  intros row _ Hrow. apply Forall_alter; [done|].
  intros v _ Hv. unfold f32_add1. destruct (v <? f32_limit); lia.
Qed.

Lemma nonneg_grid_zeros (h w : Z) : nonneg_grid (zeros h w).
Proof. apply Forall_replicate, Forall_replicate. lia. Qed.

Lemma nonneg_grid_cell (g : grid) (r c : nat) (v : Z) :
  nonneg_grid g → cell g r c = Some v → 0 ≤ v.
Proof.
  unfold cell. intros Hg Hc.
  destruct (g !! r) as [row|] eqn:Hr; simpl in Hc; [|done].
  eapply Forall_lookup_1 in Hg; [|done]. by eapply Forall_lookup_1 in Hg.
Qed.

(** While the total stays within the float32 limit, every in-bounds
    detection adds exactly one unit of mass. *)
Lemma accumulate_from_sum (w h : Z) (ds : list (float * float)) :
  ∀ g, has_shape g h w → nonneg_grid g →
  ∃ g', accumulate_from w h ds g = Some g' ∧ nonneg_grid g' ∧
    (grid_sum g + count_if (in_bounds w h) ds ≤ f32_limit →
     grid_sum g' = grid_sum g + count_if (in_bounds w h) ds).
Proof.
  induction ds as [|d ds IH]; intros g Hg Hpos; simpl.
  - exists g. split; [done|]. split; [done|]. lia.
  - pose proof (count_if_nonneg (in_bounds w h) ds) as Hcnt.
    destruct (accumulate_step_spec w h g d Hg)
      as [[Hb ->]|[Hb (r0 & c0 & v & Hv & _ & _ & ->)]]; rewrite Hb; simpl.
    + destruct (IH g Hg Hpos) as (g' & -> & Hpos' & Hsum). exists g'.
      split; [done|]. split; [done|]. intros Hle. rewrite Hsum; lia.
    + destruct (IH _ (has_shape_alter g h w f32_add1 r0 c0 Hg)
                  (nonneg_grid_alter g r0 c0 Hpos)) as (g' & -> & Hpos' & Hsum).
      exists g'. split; [done|]. split; [done|]. intros Hle.
      destruct (grid_sum_bounds g Hpos) as [_ Hcell].
      specialize (Hcell r0 c0 v Hv).
      rewrite (grid_sum_alter g f32_add1 r0 c0 v Hv) in Hsum.
      unfold f32_add1 in Hsum.
      assert (E : (v <? f32_limit) = true) by (apply Z.ltb_lt; lia).
      rewrite E in Hsum. rewrite Hsum; lia.
Qed.

Lemma cell_zeros_inv (h w : Z) (r c : nat) (v : Z) :
  cell (zeros h w) r c = Some v → v = 0.
Proof.
  unfold cell, zeros. intros Hc.
  destruct (replicate _ _ !! r) as [row|] eqn:Hr; simpl in Hc; [|done].
  apply lookup_replicate in Hr as [-> _].
  by apply lookup_replicate in Hc as [-> _].
Qed.

(** The grid just before smoothing, cell by cell. *)
Lemma accumulate_cell (ds : list (float * float)) (w h : Z) :
  0 ≤ w → 0 ≤ h →
  ∃ g, accumulate ds w h = Some g ∧ has_shape g h w ∧
    ∀ r c, cell g r c
           = (λ _, Z.min (count_if (lands_in w h r c) ds) f32_limit)
               <$> cell (zeros h w) r c.
Proof.
  intros Hw Hh. unfold accumulate.
  destruct (np_zeros_shape h w Hh Hw) as [-> Hz]. simpl.
  destruct (accumulate_from_cell w h ds _ Hz) as (g & -> & Hg & Hc).
  exists g. split; [done|]. split; [done|]. intros r c. rewrite Hc.
  destruct (cell (zeros h w) r c) as [v|] eqn:E; simpl; [|done].
  apply cell_zeros_inv in E as ->. f_equal.
  pose proof (count_if_nonneg (lands_in w h r c) ds). unfold f32_limit. lia.
Qed.

Lemma grid_1x1 (g : grid) (v : Z) :
  has_shape g 1 1 → cell g 0 0 = Some v → g = [[v]].
Proof.
  intros [Hlen Hrows] Hc. destruct g as [|row [|row' g]]; simpl in Hlen; try lia.
  assert (Hrow : Z.of_nat (length row) = 1) by (apply Hrows; left).
  destruct row as [|x [|y row]]; simpl in Hrow; try lia.
  unfold cell in Hc. simpl in Hc. by injection Hc as ->.
Qed.

(** Detections piled on one cell: the count stops at the float32 limit. *)
Lemma accumulate_origin (n : nat) :
  accumulate (replicate n origin) 1 1 = Some [[Z.min (Z.of_nat n) f32_limit]].
Proof.
  destruct (accumulate_cell (replicate n origin) 1 1) as (g & -> & Hg & Hc); [lia..|].
  f_equal. apply grid_1x1; [done|]. rewrite Hc, count_if_replicate.
  by replace (lands_in 1 1 0 0 origin) with true by (by vm_compute).
Qed.

(** C2, as stated, fails: after 16777216 detections on the cell (0, 0) a
    further in-bounds detection on that cell increments nothing. *)
Lemma rasterize_increment_lost :
  let ds := replicate (Z.to_nat 16777216) origin in
  in_bounds 1 1 origin = true ∧
  accumulate ds 1 1 = Some [[16777216]] ∧
  accumulate (ds ++ [origin]) 1 1 = Some [[16777216]] ∧
  16777216 ≠ 16777216 + 1.
Proof.
  intros ds. split; [by vm_compute|]. split; [|split; [|lia]].
  - unfold ds. rewrite accumulate_origin, Z2Nat.id by lia. reflexivity.
  - unfold ds. change [origin] with (replicate 1 origin).
    rewrite <- replicate_add, accumulate_origin, Nat2Z.inj_add, Z2Nat.id by lia.
    reflexivity.
Qed.

(** C2 (amended): for every detection list and every positive width and
    height, rasterization starts from the all-zero height x width grid and
    never fails; each cell ends at the number of detections that landed
    in it, a detection landing in the single cell (floor(y), floor(x))
    exactly when 0 <= x < width and 0 <= y < height, except that a count
    stops at 2^24 = 16777216, where float32 addition of 1 no longer changes
    it.  An out-of-bounds detection lands in no cell. *)
Theorem rasterize_cells (ds : list (float * float)) (w h : Z) :
  0 < w → 0 < h →
  ∃ g, accumulate ds w h = Some g ∧ has_shape g h w ∧
    (∀ r c : nat, Z.of_nat r < h → Z.of_nat c < w →
       cell g r c = Some (Z.min (count_if (lands_in w h r c) ds) f32_limit)) ∧
    (∀ d, in_bounds w h d = true →
       ∃ r c : nat, Z.of_nat r < h ∧ Z.of_nat c < w ∧
         Py.floor (snd d) = Some (Z.of_nat r) ∧
         Py.floor (fst d) = Some (Z.of_nat c) ∧
         ∀ r' c', lands_in w h r' c' d = true ↔ r' = r ∧ c' = c) ∧
    (∀ d, in_bounds w h d = false → ∀ r c, lands_in w h r c d = false).
Proof.
  intros Hw Hh.
  destruct (accumulate_cell ds w h) as (g & Hacc & Hg & Hc); [lia..|].
  exists g. split; [done|]. split; [done|]. split; [|split].
  - intros r c Hr Hcw. by rewrite Hc, cell_zeros.
  - intros d Hb.
    destruct (in_bounds_lands _ _ _ Hb) as (r & c & [Hr Hcw] & _ & _ & Hfy & Hfx).
    exists r, c. repeat (split; [done|]). intros r' c'.
    unfold lands_in. rewrite Hb, Hfy, Hfx. simpl.
    rewrite andb_true_iff, !bool_decide_eq_true.
    split; [intros [[= Hr'] [= Hc']]; lia|by intros [-> ->]].
  - intros d Hb r c. unfold lands_in. by rewrite Hb.
Qed.

Lemma rasterize_cells_witness :
  ∃ g, accumulate [(0.5%float, 1.5%float)] 2 2 = Some g ∧ cell g 1 0 = Some 1.
Proof.
  destruct (rasterize_cells [(0.5%float, 1.5%float)] 2 2) as (g & Hacc & _ & Hc & _);
    [lia..|].
  exists g. split; [exact Hacc|]. exact (Hc 1%nat 0%nat ltac:(lia) ltac:(lia)).
Defined.

(** C10, as stated, fails: 16777217 in-bounds detections on one cell leave
    a grid whose cells sum to 16777216. *)
Lemma accumulation_mass_lost :
  let ds := replicate (Z.to_nat 16777217) origin in
  count_if (in_bounds 1 1) ds = 16777217 ∧
  accumulate ds 1 1 = Some [[16777216]] ∧
  grid_sum [[16777216]] = 16777216.
Proof.
  intros ds. unfold ds. split; [|split; [|reflexivity]].
  - rewrite count_if_replicate.
    replace (in_bounds 1 1 origin) with true by (by vm_compute). lia.
  - rewrite accumulate_origin, Z2Nat.id by lia. reflexivity.
Qed.

(** C10 (amended): immediately after the accumulation loop, before
    smoothing, every cell of the density grid is a non-negative integer,
    no later detection ever decreases a cell, and, as long as the number
    of detections satisfying 0 <= x < width and 0 <= y < height is at most
    2^24 = 16777216, the sum of all cells equals exactly that number. *)
Theorem accumulation_mass (ds : list (float * float)) (w h : Z) :
  0 < w → 0 < h →
  ∃ g, accumulate ds w h = Some g ∧ has_shape g h w ∧
    nonneg_grid g ∧
    (count_if (in_bounds w h) ds ≤ f32_limit →
     grid_sum g = count_if (in_bounds w h) ds) ∧
    (∀ more g', accumulate (ds ++ more) w h = Some g' →
       ∀ r c v v', cell g r c = Some v → cell g' r c = Some v' → v ≤ v').
Proof.
  intros Hw Hh.
  destruct (accumulate_cell ds w h) as (g & Hacc & Hg & Hc); [lia..|].
  exists g. split; [done|]. split; [done|].
  assert (Hsum : nonneg_grid g ∧
            (count_if (in_bounds w h) ds ≤ f32_limit →
             grid_sum g = count_if (in_bounds w h) ds)).
  { revert Hacc. unfold accumulate.
    destruct (np_zeros_shape h w) as [-> Hz]; [lia..|]. simpl.
    destruct (accumulate_from_sum w h ds _ Hz (nonneg_grid_zeros h w))
      as (g0 & -> & Hpos & Hs).
    intros [= ->]. split; [done|].
    assert (E0 : grid_sum (zeros h w) = 0).
    { unfold zeros. generalize (Z.to_nat h) as n, (Z.to_nat w) as m.
      intros n m. assert (Hr : row_sum (replicate m 0) = 0)
        by (induction m; [done|unfold row_sum in *; simpl; lia]).
      induction n; simpl; lia. }
    rewrite E0 in Hs. exact Hs. }
  destruct Hsum as [Hpos Hs]. split; [done|]. split; [done|].
  intros more g' Hacc' r c v v' Hv Hv'.
  destruct (accumulate_cell (ds ++ more) w h) as (g1 & Hacc1 & _ & Hc1); [lia..|].
  rewrite Hacc1 in Hacc'. injection Hacc' as ->.
  rewrite Hc in Hv. rewrite Hc1 in Hv'.
  destruct (cell (zeros h w) r c); simplify_eq/=.
  rewrite count_if_app.
  pose proof (count_if_nonneg (lands_in w h r c) more). lia.
Qed.

Lemma accumulation_mass_witness :
  ∃ g, accumulate [(0.5%float, 1.5%float); (7%float, 0%float)] 2 2 = Some g ∧
       grid_sum g = 1.
Proof.
  destruct (accumulation_mass [(0.5%float, 1.5%float); (7%float, 0%float)] 2 2)
    as (g & Hacc & _ & _ & Hsum & _); [lia..|].
  exists g. split; [exact Hacc|]. apply Hsum. by vm_compute.
Defined.

(** ** The compositor *)

Lemma mapM_pointwise {A B C} (f : B → option C) (p1 : A → B) (p2 : A → C)
    (X : list A) :
  Forall (λ x, f (p1 x) = Some (p2 x)) X → mapM f (p1 <$> X) = Some (p2 <$> X).
Proof.
  intros HX. apply mapM_Some_2, Forall2_fmap. by apply Forall_Forall2_diag.
Qed.

Lemma broadcast_pointwise {A B C D} (f : B → C → option D)
    (p1 : A → B) (p2 : A → C) (p3 : A → D) (X : list A) :
  Forall (λ x, f (p1 x) (p2 x) = Some (p3 x)) X →
  broadcast f (p1 <$> X) (p2 <$> X) = Some (p3 <$> X).
Proof.
  intros HX. unfold broadcast. rewrite decide_True by (by rewrite !length_fmap).
  apply mapM_Some_2. induction HX as [|x X Hx _ IH]; simpl; by constructor.
Qed.

Lemma mapM2_pointwise {A B C} (f : B → option C) (p1 : A → B) (p2 : A → C)
    (X : list (list A)) :
  Forall (Forall (λ x, f (p1 x) = Some (p2 x))) X →
  mapM (mapM f) (map (map p1) X) = Some (map (map p2) X).
Proof.
  intros HX. apply mapM_pointwise. eapply Forall_impl; [exact HX|].
  intros row. apply mapM_pointwise.
Qed.

Lemma broadcast3_pointwise {A B C D} (f : B → C → option D)
    (p1 : A → list B) (p2 : A → list C) (p3 : A → list D) (X : list (list A)) :
  Forall (Forall (λ x, broadcast f (p1 x) (p2 x) = Some (p3 x))) X →
  broadcast (broadcast (broadcast f)) (map (map p1) X) (map (map p2) X)
  = Some (map (map p3) X).
Proof.
  intros HX. apply broadcast_pointwise. eapply Forall_impl; [exact HX|].
  intros row. apply broadcast_pointwise.
Qed.

Lemma map_map2 {A B C} (f : A → B) (g : B → C) (X : list (list A)) :
  map (map g) (map (map f) X) = map (map (g ∘ f)) X.
Proof.
  rewrite <- list_fmap_compose. apply list_fmap_ext. intros _ row _. simpl.
  by rewrite <- list_fmap_compose.
Qed.

Lemma nonempty_map2 {A B} (f : A → B) (X : list (list A)) :
  nonempty (map (map f) X) = nonempty X.
Proof. by destruct X as [|[|x row] X]. Qed.

(** Two images of one size are the two projections of an array of pixel
    pairs. *)
Lemma image_pairs (base layer : image) (h w : nat) :
  is_image 3 base h w → is_image 4 layer h w →
  ∃ X : list (list (list Z * list Z)),
    base = map (map fst) X ∧ layer = map (map snd) X ∧
    nonempty X = true ∧ length X = h ∧
    Forall (λ row, length row = w ∧ Forall well_formed_pair row) X.
Proof.
  intros (Hh & Hw & Hlb & Hb) (_ & _ & Hll & Hl).
  assert (HX : ∃ X : list (list (list Z * list Z)),
             base = map (map fst) X ∧ layer = map (map snd) X ∧ length X = h ∧
             Forall (λ row, length row = w ∧ Forall well_formed_pair row) X).
  { clear Hh. revert layer h Hlb Hll Hl.
    induction Hb as [|brow base [Hbw Hbrow] _ IH]; intros layer h Hlb Hll Hl.
    - destruct layer; [|simpl in *; lia]. by exists [].
    - destruct Hl as [|lrow layer [Hlw Hlrow] Hl]; [simpl in *; lia|].
      destruct (IH layer (length base) eq_refl) as (X & -> & -> & HXl & HX);
        [simpl in *; lia|done|].
      assert (Hrow : ∃ row : list (list Z * list Z),
                 brow = map fst row ∧ lrow = map snd row ∧ length row = w ∧
                 Forall well_formed_pair row).
      { clear -Hbw Hbrow Hlw Hlrow. revert lrow w Hbw Hlw Hlrow.
        induction Hbrow as [|b brow Hbp _ IH]; intros lrow w Hbw Hlw Hlrow.
        - destruct lrow; [|simpl in *; lia]. by exists [].
        - destruct Hlrow as [|l lrow Hlp Hlrow]; [simpl in *; lia|].
          destruct (IH lrow (length brow) eq_refl) as (row & -> & -> & Hlen & Hrow);
            [simpl in *; lia|done|].
          exists ((b, l) :: row). simpl in *.
          repeat split; [lia|]. by constructor. }
      destruct Hrow as (row & -> & -> & Hrl & Hrow).
      exists (row :: X). simpl in *. repeat split; [lia|]. by constructor. }
  destruct HX as (X & -> & -> & HXl & HX). exists X.
  repeat split; [|done..].
  destruct HX as [|row X [Hrl _] _]; simpl in *; [lia|].
  destruct row; simpl in *; [lia|done].
Qed.

Lemma zip_with_pairs {A B C} (f : A → B → C) (X : list (list (A * B))) :
  zip_with (zip_with f) (map (map fst) X) (map (map snd) X)
  = map (map (λ x, f x.1 x.2)) X.
Proof.
  induction X as [|row X IH]; simpl; [done|]. f_equal; [|exact IH].
  clear. induction row as [|x row IH]; simpl; [done|]. f_equal. exact IH.
Qed.

Lemma to_uint8_range (x : float) : 0 ≤ Py.to_uint8 x < 256.
Proof.
  unfold Py.to_uint8. destruct (Py.int x); [|lia]. apply Z.mod_pos_bound. lia.
Qed.

(** The compositor on two images of one size, pixel by pixel. *)
Lemma overlay_heatmap_pairs (X : list (list (list Z * list Z))) :
  nonempty X = true →
  Forall (Forall well_formed_pair) X →
  overlay_heatmap (map (map fst) X) (map (map snd) X)
  = Some (map (map (λ x, blend_pixel x.1 x.2)) X).
Proof.
  intros Hne HX. unfold overlay_heatmap, cvtColor_BGR2BGRA.
  rewrite nonempty_map2, Hne.
  rewrite (mapM2_pointwise _ fst (λ x, x.1 ++ [255])); cycle 1.
  { eapply Forall_impl; [exact HX|]. intros row Hrow.
    eapply Forall_impl; [exact Hrow|]. intros [b l] [[Hb _] _].
    destruct b as [|? [|? [|? [|]]]]; done. }
  simpl. unfold alpha_plane.
  rewrite (mapM2_pointwise _ snd (λ x, [layer_alpha (nth 3 x.2 0)])); cycle 1.
  { eapply Forall_impl; [exact HX|]. intros row Hrow.
    eapply Forall_impl; [exact Hrow|]. intros [b l] [_ [Hl _]].
    destruct l as [|? [|? [|? [|? [|]]]]]; done. }
  simpl. unfold np_mul.
  rewrite (broadcast3_pointwise _ snd _
             (λ x, (λ v, PrimFloat.mul (Py.of_Z v) (layer_alpha (nth 3 x.2 0)))
                     <$> x.2)); cycle 1.
  { eapply Forall_impl; [exact HX|]. intros row Hrow.
    eapply Forall_impl; [exact Hrow|]. intros [b l] [_ [Hl _]].
    destruct l as [|? [|? [|? [|? [|]]]]]; done. }
  simpl. unfold one_minus. rewrite map_map2.
  rewrite (broadcast3_pointwise _ (λ x, x.1 ++ [255]) _
             (λ x, (λ v, PrimFloat.mul (Py.of_Z v)
                           (PrimFloat.sub 1%float (layer_alpha (nth 3 x.2 0))))
                     <$> (x.1 ++ [255]))); cycle 1.
  { eapply Forall_impl; [exact HX|]. intros row Hrow.
    eapply Forall_impl; [exact Hrow|]. intros [b l] [[Hb _] _].
    destruct b as [|? [|? [|? [|]]]]; done. }
  simpl. unfold np_add.
  rewrite (broadcast3_pointwise _ _ _
             (λ x, zip_with PrimFloat.add
                     ((λ v, PrimFloat.mul (Py.of_Z v) (layer_alpha (nth 3 x.2 0)))
                        <$> x.2)
                     ((λ v, PrimFloat.mul (Py.of_Z v)
                              (PrimFloat.sub 1%float (layer_alpha (nth 3 x.2 0))))
                        <$> (x.1 ++ [255])))); cycle 1.
  { eapply Forall_impl; [exact HX|]. intros row Hrow.
    eapply Forall_impl; [exact Hrow|]. intros [b l] [[Hb _] [Hl _]].
    destruct b as [|? [|? [|? [|]]]]; try done.
    destruct l as [|? [|? [|? [|? [|]]]]]; done. }
  simpl. unfold astype_uint8, cvtColor_BGRA2BGR. rewrite map_map2.
  rewrite nonempty_map2, Hne.
  apply mapM2_pointwise.
  eapply Forall_impl; [exact HX|]. intros row Hrow.
  eapply Forall_impl; [exact Hrow|]. intros [b l] [[Hb _] [Hl _]].
  destruct b as [|? [|? [|? [|]]]]; try done.
  destruct l as [|? [|? [|? [|? [|]]]]]; done.
Qed.

(** C3: for every base image and RGBA layer of the same width and height,
    the compositor returns a 3-channel image of that width and height in
    which each component of each pixel is
    layer * layer_alpha + base * (1 - layer_alpha), truncated to 8 bits,
    where layer_alpha is the layer's alpha channel divided by 255 (the
    base's appended opaque alpha channel is blended alike and then
    dropped). *)
Theorem overlay_formula (base layer : image) (h w : nat) :
  is_image 3 base h w → is_image 4 layer h w →
  ∃ out,
    overlay_heatmap base layer = Some out ∧
    is_image 3 out h w ∧
    out = zip_with (zip_with blend_pixel) base layer.
Proof.
  intros Hb Hl. pose proof Hb as (Hh & Hw & _).
  destruct (image_pairs base layer h w Hb Hl) as (X & -> & -> & Hne & HXl & HX).
  assert (HX' : Forall (Forall well_formed_pair) X).
  { eapply Forall_impl; [exact HX|]. by intros row [_ Hrow]. }
  rewrite zip_with_pairs. eexists. split; [by apply overlay_heatmap_pairs|].
  split; [|done].
  split; [done|]. split; [done|]. split; [by rewrite length_fmap|].
  apply Forall_fmap. eapply Forall_impl; [exact HX|]. intros row [Hrl Hrow].
  simpl. split; [by rewrite length_fmap|].
  apply Forall_fmap. eapply Forall_impl; [exact Hrow|].
  intros [b l] [[Hbl _] [Hll _]]. simpl.
  destruct b as [|? [|? [|? [|]]]]; try done.
  destruct l as [|? [|? [|? [|? [|]]]]]; try done.
  split; [done|]. repeat constructor; apply to_uint8_range.
Qed.

Lemma forall_below (n : Z) (P : Z → bool) :
  forallb P (seqZ 0 n) = true → ∀ z, 0 ≤ z < n → P z = true.
Proof.
  intros H z Hz. rewrite forallb_forall in H. apply H.
  apply list_elem_of_In, elem_of_seqZ. lia.
Qed.

(** With a transparent layer pixel the blend is the base component,
    whatever the layer's color: checked on all 256 x 256 values. *)
Lemma blend_alpha_zero (l b : Z) :
  0 ≤ l < 256 → 0 ≤ b < 256 → blend 0 l b = b.
Proof.
  intros Hl Hb.
  assert (H : forallb (λ l, forallb (λ b, blend 0 l b =? b) (seqZ 0 256))
                (seqZ 0 256) = true) by (vm_compute; reflexivity).
  apply (forall_below _ _ H) in Hl. apply (forall_below _ _ Hl) in Hb.
  exact (proj1 (Z.eqb_eq _ _) Hb).
Qed.

Lemma overlay_alpha_zero (base layer : image) (h w : nat) :
  is_image 3 base h w → is_image 4 layer h w →
  alpha_zero_everywhere layer →
  overlay_heatmap base layer = Some base.
Proof.
  intros Hb Hl Hz.
  destruct (image_pairs base layer h w Hb Hl) as (X & -> & -> & Hne & HXl & HX).
  assert (HX' : Forall (Forall well_formed_pair) X).
  { eapply Forall_impl; [exact HX|]. by intros row [_ Hrow]. }
  rewrite overlay_heatmap_pairs by done. f_equal.
  unfold alpha_zero_everywhere in Hz.
  apply Forall_fmap_ext. rewrite Forall_fmap in Hz.
  eapply Forall_impl; [apply Forall_and; split; [exact HX'|exact Hz]|].
  intros row [Hrow Hzrow]. simpl in *.
  apply Forall_fmap_ext. rewrite Forall_fmap in Hzrow.
  eapply Forall_impl; [apply Forall_and; split; [exact Hrow|exact Hzrow]|].
  intros [b l] [[[Hbl Hbr] [Hll Hlr]] Ha]. simpl in *.
  destruct b as [|b0 [|b1 [|b2 [|]]]]; try done.
  destruct l as [|l0 [|l1 [|l2 [|a [|]]]]]; try done.
  injection Ha as ->.
  apply Forall_cons in Hbr as [? Hbr]. apply Forall_cons in Hbr as [? Hbr].
  apply Forall_cons in Hbr as [? _].
  apply Forall_cons in Hlr as [? Hlr]. apply Forall_cons in Hlr as [? Hlr].
  apply Forall_cons in Hlr as [? _].
  simpl. by rewrite !blend_alpha_zero.
Qed.

(** C4: for every base image, compositing it with an RGBA layer of the
    same size whose alpha channel is 0 at every pixel returns the base
    image unchanged, pixel for pixel. *)
Theorem overlay_transparent_layer (base layer : image) (h w : nat) :
  is_image 3 base h w → is_image 4 layer h w →
  alpha_zero_everywhere layer →
  overlay_heatmap base layer = Some base.
Proof. apply overlay_alpha_zero. Qed.

Lemma white_pixel_is_image : is_image 3 white_pixel_image 1 1.
Proof. unfold is_image, white_pixel_image. repeat split; try lia; repeat constructor; lia. Qed.

Lemma red_layer_is_image : is_image 4 red_layer 1 1.
Proof. unfold is_image, red_layer. repeat split; try lia; repeat constructor; lia. Qed.

Lemma clear_layer_is_image : is_image 4 clear_layer 1 1.
Proof. unfold is_image, clear_layer. repeat split; try lia; repeat constructor; lia. Qed.

Lemma overlay_formula_witness :
  ∃ out, overlay_heatmap white_pixel_image red_layer = Some out ∧
         out = [[[141; 141; 255]]].
Proof.
  destruct (overlay_formula white_pixel_image red_layer 1 1
              white_pixel_is_image red_layer_is_image) as (out & Hout & _ & Heq).
  exists out. split; [exact Hout|]. rewrite Heq. reflexivity.
Defined.

Lemma overlay_transparent_layer_witness :
  overlay_heatmap white_pixel_image clear_layer = Some white_pixel_image.
Proof.
  apply (overlay_transparent_layer white_pixel_image clear_layer 1 1
           white_pixel_is_image clear_layer_is_image).
  unfold alpha_zero_everywhere, clear_layer. repeat constructor.
Defined.

(** C9: re-applying a layer whose alpha is 0 everywhere leaves the result
    unchanged, whereas for some base image and some RGBA layer with a pixel
    of non-zero alpha compositing the composite again with the same layer
    differs from compositing once. *)
Theorem overlay_idempotent_only_transparent :
  (∀ (base layer : image) (h w : nat),
     is_image 3 base h w → is_image 4 layer h w →
     alpha_zero_everywhere layer →
     ∃ once, overlay_heatmap base layer = Some once ∧
             overlay_heatmap once layer = Some once) ∧
  (∃ (base layer : image) (h w : nat) (once twice : image),
     is_image 3 base h w ∧ is_image 4 layer h w ∧
     alpha_nonzero_somewhere layer ∧
     overlay_heatmap base layer = Some once ∧
     overlay_heatmap once layer = Some twice ∧
     twice ≠ once).
Proof.
  split.
  - intros base layer h w Hb Hl Hz. exists base.
    split; by eapply overlay_alpha_zero.
  - exists white_pixel_image, red_layer, 1%nat, 1%nat,
      [[[141; 141; 255]]], [[[77; 77; 255]]].
    split; [exact white_pixel_is_image|]. split; [exact red_layer_is_image|].
    split; [|split; [by vm_compute|split; [by vm_compute|done]]].
    unfold alpha_nonzero_somewhere, red_layer.
    do 2 apply Exists_cons_hd. exists 114. split; [done|lia].
Qed.

Lemma overlay_idempotent_only_transparent_witness :
  ∃ once, overlay_heatmap white_pixel_image clear_layer = Some once ∧
          overlay_heatmap once clear_layer = Some once.
Proof.
  apply (proj1 overlay_idempotent_only_transparent
           white_pixel_image clear_layer 1%nat 1%nat
           white_pixel_is_image clear_layer_is_image).
  unfold alpha_zero_everywhere, clear_layer. repeat constructor.
Defined.

(** ** The extractor *)

Section ExtractorFacts.

Variable py_float : string → option float.

(** On a message string the loop body never raises and contributes what
    the contract says. *)
Lemma parse_msg_centroid (s : string) :
  parse_msg py_float (JStr s) = Ok (message_centroid py_float s).
Proof.
  unfold parse_msg, message_centroid.
  destruct (split pipe s) as [|p0 [|p1 [|p2 [|p3 [|p4 [|p5 [|p6 [|p7 ps]]]]]]]];
    try reflexivity.
  change (lower "person") with "person"%string. simpl.
  destruct (py_float p1), (py_float p2), (py_float p3), (py_float p4);
    try reflexivity.
  destruct (String.eqb (lower p5) "person"); reflexivity.
Qed.

Lemma parse_msgs_strings (msgs : list string) :
  ∀ acc, parse_msgs py_float (map JStr msgs) acc
         = Ok (acc ++ omap (message_centroid py_float) msgs).
Proof.
  induction msgs as [|s msgs IH]; intros acc.
  - simpl. by rewrite app_nil_r.
  - rewrite fmap_cons. cbn [parse_msgs]. rewrite parse_msg_centroid.
    cbn [bind omap list_omap]. rewrite IH.
    destruct (message_centroid py_float s); [|done].
    by rewrite <- app_assoc.
Qed.

Lemma parse_hit_strings (msgs : list string) (acc : list (float * float)) :
  parse_hit py_float (hit_of msgs) acc
  = Ok (acc ++ omap (message_centroid py_float) msgs).
Proof. unfold parse_hit, hit_of. cbn [dict_get find bind iterate fst snd String.eqb Ascii.eqb Bool.eqb]. apply parse_msgs_strings. Qed.

Lemma parse_hits_strings (hits : list (list string)) :
  ∀ acc, parse_hits py_float (map hit_of hits) acc
         = Ok (acc ++ omap (message_centroid py_float) (concat hits)).
Proof.
  induction hits as [|msgs hits IH]; intros acc.
  - simpl. by rewrite app_nil_r.
  - rewrite fmap_cons. cbn [parse_hits concat]. rewrite parse_hit_strings.
    cbn [bind]. rewrite IH. by rewrite omap_app, app_assoc.
Qed.

Lemma dict_get_member (key : string) (dflt : json)
    (members : list (string * json)) :
  dict_get key dflt (JDict members) = Ok (default dflt (member key members)).
Proof. unfold dict_get, member. by destruct (find _ members). Qed.

Lemma parse_hit_messages (hit : json) (msgs : list string)
    (acc : list (float * float)) :
  hit_messages hit msgs →
  parse_hit py_float hit acc
  = Ok (acc ++ omap (message_centroid py_float) msgs).
Proof.
  intros [h Hf|h f Hf Hm|h f ms Hf Hm]; unfold parse_hit;
    rewrite dict_get_member, Hf; cbn [from_option id bind].
  - cbn. by rewrite app_nil_r.
  - rewrite dict_get_member, Hm. cbn. by rewrite app_nil_r.
  - rewrite dict_get_member, Hm. cbn [from_option id bind iterate].
    apply parse_msgs_strings.
Qed.

Lemma parse_hits_messages (hits : list json) (msgss : list (list string)) :
  Forall2 hit_messages hits msgss →
  ∀ acc, parse_hits py_float hits acc
         = Ok (acc ++ omap (message_centroid py_float) (concat msgss)).
Proof.
  induction 1 as [|hit msgs hits msgss Hhit _ IH]; intros acc.
  - simpl. by rewrite app_nil_r.
  - cbn [parse_hits concat]. rewrite (parse_hit_messages _ _ _ Hhit).
    cbn [bind]. rewrite IH. by rewrite omap_app, app_assoc.
Qed.

Lemma parse_document_messages (data : json) (msgss : list (list string)) :
  document_messages data msgss →
  parse_geojson py_float data
  = Ok (omap (message_centroid py_float) (concat msgss)).
Proof.
  intros [top Ht|top inner Ht Hi|top inner hits mss Ht Hi Hhits];
    unfold parse_geojson; rewrite dict_get_member, Ht;
    cbn [from_option id bind].
  - reflexivity.
  - rewrite dict_get_member, Hi. reflexivity.
  - rewrite dict_get_member, Hi. cbn [from_option id bind iterate].
    by rewrite (parse_hits_messages _ _ Hhits).
Qed.

Lemma omap_nothing {A B} (f : A → option B) (l : list A) :
  Forall (λ x, f x = None) l → omap f l = [].
Proof.
  induction 1 as [|x l Hx _ IH]; [done|]. cbn [omap list_omap].
  by rewrite Hx.
Qed.

Lemma dict_get_first (key : string) (default v : json)
    (members : list (string * json)) :
  dict_get key default (JDict ((key, v) :: members)) = Ok v.
Proof. unfold dict_get. simpl. by rewrite String.eqb_refl. Qed.

End ExtractorFacts.

Lemma parse_document_of_hits (py_float : string → option float)
    (hits : list (list string)) :
  parse_geojson py_float (document_of_hits hits)
  = Ok (omap (message_centroid py_float) (concat hits)).
Proof.
  unfold parse_geojson, document_of_hits.
  cbn [dict_get find bind iterate fst snd String.eqb Ascii.eqb Bool.eqb].
  apply parse_hits_strings.
Qed.

(** C7: given a document whose only message string is
    "1|100|100|200|200|person|region", extraction yields exactly the one
    centroid (150.0, 150.0), which is ((x_min+x_max)/2, (y_min+y_max)/2);
    with the class label "car" instead of "person" it yields the empty
    sequence.  [float] enters through what it returns on "100" and
    "200". *)
Theorem extract_person_record (py_float : string → option float) :
  py_float "100"%string = Some 100%float →
  py_float "200"%string = Some 200%float →
  parse_geojson py_float (document ["1|100|100|200|200|person|region"%string])
  = Ok [(PrimFloat.div (PrimFloat.add 100 200) 2, PrimFloat.div (PrimFloat.add 100 200) 2)%float]
  ∧ (PrimFloat.div (PrimFloat.add 100 200) 2)%float = 150%float
  ∧ parse_geojson py_float (document ["1|100|100|200|200|car|region"%string])
    = Ok [].
Proof.
  intros H100 H200. unfold document. rewrite !parse_document_of_hits.
  unfold message_centroid. simpl. rewrite H100, H200. simpl.
  repeat split; reflexivity.
Qed.

Lemma extract_person_record_witness :
  parse_geojson float_of_digits
    (document ["1|100|100|200|200|person|region"%string])
  = Ok [(150%float, 150%float)].
Proof.
  exact (proj1 (extract_person_record float_of_digits eq_refl eq_refl)).
Defined.

(** Lowering a character gives a letter of "person" exactly on that
    letter and its capital. *)
Lemma lower_ascii_person (c : ascii) :
  Ascii.eqb (lower_ascii c) "p" = either_case "p" "P" c ∧
  Ascii.eqb (lower_ascii c) "e" = either_case "e" "E" c ∧
  Ascii.eqb (lower_ascii c) "r" = either_case "r" "R" c ∧
  Ascii.eqb (lower_ascii c) "s" = either_case "s" "S" c ∧
  Ascii.eqb (lower_ascii c) "o" = either_case "o" "O" c ∧
  Ascii.eqb (lower_ascii c) "n" = either_case "n" "N" c.
Proof. destruct c as [[] [] [] [] [] [] [] []]; vm_compute; repeat split. Qed.

(** [obj_type.lower() == 'person'] holds exactly of the 64 spellings of
    "person" in upper and lower case. *)
Lemma lower_person (label : string) :
  String.eqb (lower label) "person" = person_any_case label.
Proof.
  unfold person_any_case.
  destruct label as [|c1 [|c2 [|c3 [|c4 [|c5 [|c6 [|c7 rest]]]]]]];
    cbn [lower list_ascii_of_string String.eqb];
    repeat match goal with
           | |- context [Ascii.eqb (lower_ascii ?c) "p"] =>
               rewrite (proj1 (lower_ascii_person c))
           | |- context [Ascii.eqb (lower_ascii ?c) "e"] =>
               rewrite (proj1 (proj2 (lower_ascii_person c)))
           | |- context [Ascii.eqb (lower_ascii ?c) "r"] =>
               rewrite (proj1 (proj2 (proj2 (lower_ascii_person c))))
           | |- context [Ascii.eqb (lower_ascii ?c) "s"] =>
               rewrite (proj1 (proj2 (proj2 (proj2 (lower_ascii_person c)))))
           | |- context [Ascii.eqb (lower_ascii ?c) "o"] =>
               rewrite (proj1 (proj2 (proj2 (proj2 (proj2
                                (lower_ascii_person c))))))
           | |- context [Ascii.eqb (lower_ascii ?c) "n"] =>
               rewrite (proj2 (proj2 (proj2 (proj2 (proj2
                                (lower_ascii_person c))))))
           end;
    repeat match goal with
           | |- context [either_case ?l ?u ?c] => destruct (either_case l u c)
           end;
    reflexivity.
Qed.

(** C8, as stated, fails: a message that is a number does not split into
    7 parts, yet extraction does not skip it.  On a document whose only
    hit carries a person record followed by the number 7, extraction
    raises [AttributeError]; without the number it returns the record's
    centroid. *)
Lemma extraction_raises_on_number :
  parse_geojson float_of_digits
    (document_of_values
       [[JStr "1|100|100|200|200|person|region"; JInt 7]])
  = Raise AttributeError ∧
  parse_geojson float_of_digits
    (document_of_values [[JStr "1|100|100|200|200|person|region"]])
  = Ok [(150%float, 150%float)].
Proof. split; vm_compute; reflexivity. Qed.

(** C8 (amended): for every input document whose tree, as far as it is
    present, has the types the service writes (the document, its ["hits"]
    member and the ["fields"] member of a hit are objects, the inner
    ["hits"] and the ["deepstream-msg"] members are arrays, the hits are
    objects and the messages strings), whatever other members it has,
    extraction never raises and returns, in document order, what each
    message contributes.  A message that does not split into exactly 7
    '|'-separated parts contributes nothing, and neither does one of whose
    four coordinate fields fails to parse as a number.  A message of 7
    parts with four parsable coordinates contributes its centroid
    ((x_min+x_max)/2, (y_min+y_max)/2) when its class label spells
    "person" with each letter in either case, and nothing otherwise.  A
    ["hits"], ["fields"] or ["deepstream-msg"] member missing from the
    tree counts as an empty list.  When no message contributes, the result
    is the empty sequence, an ordinary result. *)
Theorem extraction_policy (py_float : string → option float) :
  (∀ data msgss, document_messages data msgss →
     parse_geojson py_float data
     = Ok (omap (message_centroid py_float) (concat msgss))) ∧
  (∀ msg, length (split pipe msg) ≠ 7%nat →
     message_centroid py_float msg = None) ∧
  (∀ msg (i : nat), (1 ≤ i ≤ 4)%nat →
     py_float (nth i (split pipe msg) EmptyString) = None →
     message_centroid py_float msg = None) ∧
  (∀ msg id x_min y_min x_max y_max label region x0 y0 x1 y1,
     split pipe msg = [id; x_min; y_min; x_max; y_max; label; region] →
     py_float x_min = Some x0 → py_float y_min = Some y0 →
     py_float x_max = Some x1 → py_float y_max = Some y1 →
     message_centroid py_float msg
     = if person_any_case label
       then Some (PrimFloat.div (PrimFloat.add x0 x1) 2,
                  PrimFloat.div (PrimFloat.add y0 y1) 2)%float
       else None) ∧
  (∀ top, member "hits" top = None →
     parse_geojson py_float (JDict top) = Ok []) ∧
  (∀ top inner, member "hits" top = Some (JDict inner) →
     member "hits" inner = None →
     parse_geojson py_float (JDict top) = Ok []) ∧
  (∀ hit acc, member "fields" hit = None →
     parse_hit py_float (JDict hit) acc = Ok acc) ∧
  (∀ hit fields acc, member "fields" hit = Some (JDict fields) →
     member "deepstream-msg" fields = None →
     parse_hit py_float (JDict hit) acc = Ok acc) ∧
  (∀ data msgss, document_messages data msgss →
     Forall (Forall (λ msg, message_centroid py_float msg = None)) msgss →
     parse_geojson py_float data = Ok []).
Proof.
  repeat apply conj.
  - apply parse_document_messages.
  - intros msg Hlen. unfold message_centroid.
    destruct (split pipe msg) as [|p0 [|p1 [|p2 [|p3 [|p4 [|p5 [|p6 [|p7 ps]]]]]]]];
      done.
  - intros msg i Hi Hnone. unfold message_centroid.
    destruct (split pipe msg) as [|p0 [|p1 [|p2 [|p3 [|p4 [|p5 [|p6 [|p7 ps]]]]]]]];
      try done.
    destruct i as [|[|[|[|[|i]]]]]; try lia; simpl in Hnone; rewrite Hnone;
      try done.
    + by destruct (py_float p1).
    + by destruct (py_float p1), (py_float p2).
    + by destruct (py_float p1), (py_float p2), (py_float p3).
  - intros msg id x_min y_min x_max y_max label region x0 y0 x1 y1
      Hsplit Hx0 Hy0 Hx1 Hy1.
    unfold message_centroid. rewrite Hsplit, Hx0, Hy0, Hx1, Hy1.
    change (lower "person") with "person"%string.
    by rewrite lower_person.
  - intros top Ht.
    by rewrite (parse_document_messages py_float _ _
                  (document_without_hits top Ht)).
  - intros top inner Ht Hi.
    by rewrite (parse_document_messages py_float _ _
                  (document_without_inner_hits top inner Ht Hi)).
  - intros hit acc Hf.
    rewrite (parse_hit_messages py_float _ _ acc (hit_without_fields hit Hf)).
    cbn [omap list_omap]. by rewrite app_nil_r.
  - intros hit fields acc Hf Hm.
    rewrite (parse_hit_messages py_float _ _ acc
               (hit_without_messages hit fields Hf Hm)).
    cbn [omap list_omap]. by rewrite app_nil_r.
  - intros data msgss Hdoc Hnone.
    rewrite (parse_document_messages py_float _ _ Hdoc). f_equal.
    apply omap_nothing. by apply Forall_concat.
Qed.

Lemma extraction_policy_witness :
  parse_geojson float_of_digits sample_document = Ok [(150%float, 150%float)].
Proof.
  rewrite (proj1 (extraction_policy float_of_digits)
             sample_document sample_messages).
  - vm_compute. reflexivity.
  - eapply document_with_hits; [reflexivity..|].
    constructor; [eapply hit_with_messages; reflexivity|].
    constructor; [apply hit_without_fields; reflexivity|].
    constructor; [eapply hit_without_messages; reflexivity|].
    constructor.
Defined.

(** ** Rounding of a product below an integer bound *)

Lemma digits2_upper (p : positive) :
  ∀ d, 0 ≤ d → Z.pos p < 2 ^ d → Z.pos (digits2_pos p) ≤ d.
Proof.
  induction p as [p IH|p IH|]; intros d Hd Hp; simpl.
  - assert (d ≠ 0) by (intros ->; simpl in Hp; lia).
    replace d with (Z.succ (d - 1)) in Hp by lia.
    rewrite Z.pow_succ_r in Hp by lia.
    specialize (IH (d - 1)). rewrite Pos2Z.inj_succ. lia.
  - assert (d ≠ 0) by (intros ->; simpl in Hp; lia).
    replace d with (Z.succ (d - 1)) in Hp by lia.
    rewrite Z.pow_succ_r in Hp by lia.
    specialize (IH (d - 1)). rewrite Pos2Z.inj_succ. lia.
  - assert (d ≠ 0) by (intros ->; simpl in Hp; lia). lia.
Qed.

Lemma Zdigits2_upper (m d : Z) : 0 ≤ m → 0 ≤ d → m < 2 ^ d → Zdigits2 m ≤ d.
Proof.
  intros Hm Hd Hlt. destruct m as [|p|p]; simpl; [lia| |lia].
  by apply digits2_upper.
Qed.

Lemma shr_1_m (r : shr_record) : 0 ≤ shr_m r → shr_m (shr_1 r) = shr_m r / 2.
Proof.
  destruct r as [m b s]. cbn [shr_m]. intros Hm.
  destruct m as [|[p|p|]|p]; cbn [shr_1 shr_m]; try lia; try reflexivity.
  - apply Z.div_unique with 1; lia.
  - apply Z.div_unique with 0; lia.
Qed.

Lemma iter_pos_invariant {A} (f : A → A) (I : Z → A → Prop) :
  (∀ j x, 0 ≤ j → I j x → I (j + 1) (f x)) →
  ∀ p j x, 0 ≤ j → I j x → I (j + Z.pos p) (SpecFloat.iter_pos f p x).
Proof.
  intros Hstep. induction p as [p IH|p IH|]; intros j x Hj Hx; simpl.
  - replace (j + Z.pos p~1) with (j + 1 + Z.pos p + Z.pos p) by lia.
    apply IH; [lia|]. apply IH; [lia|]. by apply Hstep.
  - replace (j + Z.pos p~0) with (j + Z.pos p + Z.pos p) by lia.
    apply IH; [lia|]. by apply IH.
  - by apply Hstep.
Qed.

Lemma shr_iter_m (m : Z) (p : positive) (r : shr_record) :
  0 ≤ m → shr_m r = m →
  shr_m (SpecFloat.iter_pos shr_1 p r) = m / 2 ^ Z.pos p.
Proof.
  intros Hm Hr.
  assert (Hstep : ∀ j x, 0 ≤ j → shr_m x = m / 2 ^ j →
                         shr_m (shr_1 x) = m / 2 ^ (j + 1)).
  { intros j x Hj Hx.
    rewrite shr_1_m by (rewrite Hx; apply Z.div_pos; [lia|by apply pow2_pos]).
    rewrite Hx, Z.div_div by (try apply pow2_pos; lia).
    by rewrite Z.pow_add_r, Z.pow_1_r by lia. }
  apply (iter_pos_invariant shr_1 (λ j x, shr_m x = m / 2 ^ j) Hstep p 0 r);
    [lia|]. by rewrite Z.div_1_r.
Qed.

(** The first component of [shr_fexp] on an exact input: the mantissa is
    shifted right far enough for the exponent to be canonical. *)
Lemma shr_fexp_m (m e : Z) :
  0 ≤ m →
  ∃ r e', shr_fexp prec emax m e loc_Exact = (r, e') ∧
    e' = Z.max e (fexp prec emax (Zdigits2 m + e)) ∧
    shr_m r = m / 2 ^ (e' - e).
Proof.
  intros Hm. unfold shr_fexp, shr.
  destruct (fexp prec emax (Zdigits2 m + e) - e) as [|p|p] eqn:E.
  - eexists _, _. split; [reflexivity|]. split; [lia|].
    simpl. by rewrite Z.sub_diag, Z.div_1_r.
  - eexists _, _. split; [reflexivity|]. split; [lia|].
    replace (e + Z.pos p - e) with (Z.pos p) by lia. by apply shr_iter_m.
  - eexists _, _. split; [reflexivity|]. split; [lia|].
    simpl. by rewrite Z.sub_diag, Z.div_1_r.
Qed.

Lemma round_nearest_even_bounds (m : Z) (l : location) :
  m ≤ round_nearest_even m l ≤ m + 1.
Proof.
  unfold round_nearest_even.
  destruct l as [|[| |]]; try destruct (IntDef.Z.even m); lia.
Qed.

Lemma pow2_times_256 (k : Z) : 0 ≤ k → 256 * 2 ^ k = 2 ^ (8 + k).
Proof. intros Hk. by rewrite Z.pow_add_r by lia. Qed.

Lemma pow2_split (a b : Z) : 0 ≤ a → 0 ≤ b → 2 ^ (a + b) = 2 ^ a * 2 ^ b.
Proof. intros. by apply Z.pow_add_r. Qed.

(** Rounding to binary64 of an exact value [M * 2 ^ e] that is at most 255
    gives a float whose integer part is at most 255. *)
Lemma round_aux_below (M : positive) (e : Z) :
  e < 0 → Z.pos M ≤ 255 * 2 ^ (- e) →
  ∃ z, Py.int_sf (binary_round_aux prec emax false (Z.pos M) e loc_Exact) = Some z
       ∧ 0 ≤ z ≤ 255.
Proof.
  intros He HM. unfold binary_round_aux.
  destruct (shr_fexp_m (Z.pos M) e) as (r1 & e1 & -> & He1 & Hm1); [lia|].
  pose proof (round_nearest_even_bounds (shr_m r1) (loc_of_shr_record r1)) as Hm2.
  set (m2 := round_nearest_even (shr_m r1) (loc_of_shr_record r1)) in *.
  pose proof (pow2_pos (- e) ltac:(lia)) as Hpe.
  assert (Hd1 : Zdigits2 (Z.pos M) ≤ 8 - e).
  { apply Zdigits2_upper; [lia..|].
    replace (8 - e) with (8 + - e) by lia. rewrite <- pow2_times_256 by lia. lia. }
  assert (He1' : e ≤ e1 < 0).
  { unfold fexp, SpecFloat.emin, prec, emax in He1. lia. }
  pose proof (pow2_pos (- e1) ltac:(lia)) as Hpe1.
  pose proof (pow2_pos (e1 - e) ltac:(lia)) as Hpd1.
  assert (Hsplit1 : 2 ^ (- e) = 2 ^ (e1 - e) * 2 ^ (- e1)).
  { rewrite <- pow2_split by lia. f_equal. lia. }
  assert (Hm1' : 0 ≤ shr_m r1 ≤ 255 * 2 ^ (- e1)).
  { rewrite Hm1. split; [apply Z.div_pos; lia|].
    apply Z.div_le_upper_bound; [lia|]. rewrite Hsplit1 in HM. lia. }
  assert (Htwo : 2 ≤ 2 ^ (- e1)).
  { replace (- e1) with (Z.succ (- e1 - 1)) by lia.
    rewrite Z.pow_succ_r by lia.
    pose proof (pow2_pos (- e1 - 1) ltac:(lia)). lia. }
  assert (Hm2' : 0 ≤ m2 < 256 * 2 ^ (- e1)) by lia.
  destruct (shr_fexp_m m2 e1) as (r3 & e3 & -> & He3 & Hm3); [lia|].
  assert (Hd2 : Zdigits2 m2 ≤ 8 - e1).
  { apply Zdigits2_upper; [lia..|].
    replace (8 - e1) with (8 + - e1) by lia. rewrite <- pow2_times_256 by lia. lia. }
  assert (He3' : e1 ≤ e3 < 0).
  { unfold fexp, SpecFloat.emin, prec, emax in He3. lia. }
  pose proof (pow2_pos (- e3) ltac:(lia)) as Hpe3.
  pose proof (pow2_pos (e3 - e1) ltac:(lia)) as Hpd3.
  assert (Hsplit3 : 2 ^ (- e1) = 2 ^ (e3 - e1) * 2 ^ (- e3)).
  { rewrite <- pow2_split by lia. f_equal. lia. }
  assert (Hm3' : 0 ≤ shr_m r3 < 256 * 2 ^ (- e3)).
  { rewrite Hm3. split; [apply Z.div_pos; lia|].
    apply Z.div_lt_upper_bound; [lia|]. rewrite Hsplit3 in Hm2'. lia. }
  destruct (shr_m r3) as [|m|m]; [| |lia].
  - exists 0. split; [reflexivity|lia].
  - assert (E : (e3 <=? emax - prec) = true)
      by (apply Z.leb_le; unfold emax, prec; lia).
    rewrite E. unfold Py.int_sf, Py.mant.
    assert (E0 : (0 <=? e3) = false) by (apply Z.leb_gt; lia).
    rewrite E0. eexists. split; [reflexivity|].
    rewrite Z.quot_div_nonneg by lia.
    split; [apply Z.div_pos; lia|].
    assert (Z.pos m / 2 ^ (- e3) < 256); [|lia].
    apply Z.div_lt_upper_bound; lia.
Qed.

(** For every float [alpha] in [0, 1] the level [int(255 * alpha)] is
    defined and lies in [0, 255]. *)
Lemma level_unit_interval (alpha : float) :
  Py.int_le 0 alpha = true → Py.le_int alpha 1 = true →
  ∃ a, level alpha = Some a ∧ 0 ≤ a ≤ 255.
Proof.
  unfold level, Py.int. rewrite FloatAxioms.mul_spec.
  replace (Prim2SF (Py.of_Z 255))
    with (S754_finite false 8972014882652160 (-45)) by (by vm_compute).
  unfold Py.int_le, Py.le_int, Py.cmp.
  destruct (Prim2SF alpha) as [s|s| |s m e]; try discriminate.
  - intros _ _. exists 0. split; [reflexivity|lia].
  - destruct s; discriminate.
  - intros H0 H1. unfold SF64mul, SFmul.
    destruct s.
    { exfalso. unfold Py.mant in H0. destruct (0 <=? e) eqn:Ee.
      - apply Z.leb_le in Ee. pose proof (pow2_pos e Ee).
        destruct (Z.compare_spec (Z.neg m * 2 ^ e) 0); try discriminate; lia.
      - destruct (Z.compare_spec (Z.neg m) (0 * 2 ^ (- e))); try discriminate; lia. }
    cbn [xorb]. unfold Py.mant in H1.
    destruct (0 <=? e) eqn:Ee.
    + apply Z.leb_le in Ee. pose proof (pow2_pos e Ee) as Hp.
      assert (Hle : Z.pos m * 2 ^ e ≤ 1)
        by (destruct (Z.compare_spec (Z.pos m * 2 ^ e) 1); try discriminate; lia).
      assert (Hm : m = 1%positive) by nia.
      assert (He : e = 0).
      { destruct (decide (e = 0)) as [|Hne]; [done|exfalso].
        assert (Ht : 2 ≤ 2 ^ e).
        { replace e with (Z.succ (e - 1)) by lia.
          rewrite Z.pow_succ_r by lia.
          pose proof (pow2_pos (e - 1) ltac:(lia)). lia. }
        nia. }
      subst. exists 255. split; [by vm_compute|lia].
    + apply Z.leb_gt in Ee.
      apply round_aux_below; [lia|].
      pose proof (pow2_pos (- e) ltac:(lia)) as Hp.
      assert (Hle : Z.pos m ≤ 2 ^ (- e))
        by (destruct (Z.compare_spec (Z.pos m) (1 * 2 ^ (- e)));
            try discriminate; lia).
      replace (- (-45 + e)) with (45 + - e) by lia.
      rewrite pow2_split, Pos2Z.inj_mul by lia.
      change (2 ^ 45) with 35184372088832.
      change (Z.pos 8972014882652160) with (255 * 35184372088832). nia.
Qed.

(** ** The color ramp *)

Lemma foldl_insert_lookup (f : Z → list Z) (indices : list Z) :
  ∀ (table : list (list Z)) (k : Z),
    Forall (λ i, 0 ≤ i < Z.of_nat (length table)) indices → 0 ≤ k →
    foldl (λ t i, <[Z.to_nat i := f i]> t) table indices !! Z.to_nat k
    = if decide (k ∈ indices) then Some (f k) else table !! Z.to_nat k.
Proof.
  induction indices as [|i indices IH]; intros table k Hin Hk; cbn [foldl].
  - rewrite decide_False; [done|]. apply not_elem_of_nil.
  - apply Forall_cons in Hin as [Hi Hin].
    rewrite IH; [|by rewrite length_insert|done].
    destruct (decide (k ∈ indices)) as [Hk'|Hk'].
    + rewrite decide_True; [done|]. by right.
    + destruct (decide (i = k)) as [->|Hne].
      * rewrite decide_True by left.
        apply list_lookup_insert_eq. lia.
      * rewrite decide_False by (rewrite elem_of_cons; intros [?|?]; congruence).
        apply list_lookup_insert_ne. lia.
Qed.

Lemma foldl_insert_length (f : Z → list Z) (indices : list Z) :
  ∀ table : list (list Z),
    length (foldl (λ t i, <[Z.to_nat i := f i]> t) table indices) = length table.
Proof.
  induction indices as [|i indices IH]; intros table; simpl; [done|].
  by rewrite IH, length_insert.
Qed.

Lemma create_custom_colormap_level (alpha : float) :
  create_custom_colormap alpha = ramp_table <$> level alpha.
Proof.
  unfold create_custom_colormap. destruct (level alpha) as [a|]; [|done].
  reflexivity.
Qed.

Lemma ramp_table_length (a : Z) : length (ramp_table a) = 256%nat.
Proof. unfold ramp_table. by rewrite foldl_insert_length. Qed.

Lemma ramp_table_zero (a : Z) : ramp_table a !! 0%nat = Some [0; 0; 0; 0].
Proof.
  unfold ramp_table. change 0%nat with (Z.to_nat 0).
  rewrite foldl_insert_lookup; [|apply Forall_seqZ; simpl; lia|lia].
  rewrite decide_False; [done|]. rewrite elem_of_seqZ. lia.
Qed.

Lemma ramp_table_lookup (a i : Z) :
  1 ≤ i ≤ 255 →
  ramp_table a !! Z.to_nat i
  = Some (ramp_entry 25 63 127 178
            [255; 0; 0; a] [0; 255; 0; a] [0; 255; 255; a]
            [0; 165; 255; a] [0; 0; 255; a] i).
Proof.
  intros Hi. unfold ramp_table.
  rewrite foldl_insert_lookup; [|apply Forall_seqZ; simpl; lia|lia].
  rewrite decide_True; [done|]. rewrite elem_of_seqZ. lia.
Qed.

Lemma ramp_entry_length (a i : Z) :
  length (ramp_entry 25 63 127 178
            [255; 0; 0; a] [0; 255; 0; a] [0; 255; 255; a]
            [0; 165; 255; a] [0; 0; 255; a] i) = 4%nat.
Proof.
  unfold ramp_entry.
  repeat match goal with |- context [if ?b then _ else _] => destruct b end;
    reflexivity.
Qed.

(** C1, as stated, fails at the default alpha 0.45 (which lies in
    [0, 1]): round(255 * 0.45) is 115, entry 1 carries alpha 114 and
    entry 133 carries alpha 113. *)
Lemma colormap_alpha_not_rounded :
  Py.int_le 0 default_alpha = true ∧ Py.le_int default_alpha 1 = true ∧
  py_round (PrimFloat.mul 255 default_alpha) = Some 115 ∧
  (create_custom_colormap default_alpha ≫= λ t, entry_alpha t 1) = Some 114 ∧
  (create_custom_colormap default_alpha ≫= λ t, entry_alpha t 133) = Some 113.
Proof. repeat split; vm_compute; reflexivity. Qed.

(** C1 (amended): for every alpha in [0, 1], the color-ramp builder
    returns a table of exactly 256 RGBA entries in which entry 0 has alpha
    component 0 and every entry with index 179 through 255 (the constant
    last segment) carries the alpha component int(255 * alpha), the product
    truncated toward zero, which lies in [0, 255]. *)
Theorem colormap_alpha (alpha : float) :
  Py.int_le 0 alpha = true → Py.le_int alpha 1 = true →
  ∃ table a,
    create_custom_colormap alpha = Some table ∧
    level alpha = Some a ∧ 0 ≤ a ≤ 255 ∧
    length table = 256%nat ∧
    Forall (λ e, length e = 4%nat) table ∧
    entry_alpha table 0 = Some 0 ∧
    ∀ i : nat, (179 ≤ i ≤ 255)%nat → entry_alpha table i = Some a.
Proof.
  intros H0 H1. destruct (level_unit_interval alpha H0 H1) as (a & Ha & Hr).
  exists (ramp_table a), a. rewrite create_custom_colormap_level, Ha.
  split; [done|]. split; [done|]. split; [done|].
  split; [apply ramp_table_length|]. split; [|split].
  - apply Forall_lookup. intros i e Hi.
    pose proof (lookup_lt_Some _ _ _ Hi) as Hlt. rewrite ramp_table_length in Hlt.
    destruct i as [|i].
    + rewrite ramp_table_zero in Hi. by injection Hi as <-.
    + rewrite <- (Nat2Z.id (S i)), ramp_table_lookup in Hi by lia.
      injection Hi as <-. apply ramp_entry_length.
  - unfold entry_alpha. by rewrite ramp_table_zero.
  - intros i Hi. unfold entry_alpha.
    rewrite <- (Nat2Z.id i), ramp_table_lookup by lia.
    unfold ramp_entry.
    repeat match goal with
           | |- context [?x <=? ?y] =>
               let E := fresh in
               destruct (Z.leb_spec x y) as [E|E]; [lia|clear E]
           end.
    simpl. unfold Py.wrap_uint8. by rewrite Z.mod_small by lia.
Qed.

Lemma colormap_alpha_witness :
  ∃ table, create_custom_colormap default_alpha = Some table ∧
           entry_alpha table 200 = Some 114.
Proof.
  destruct (colormap_alpha default_alpha eq_refl eq_refl)
    as (table & a & Htable & Ha & _ & _ & _ & _ & Hi).
  exists table. split; [exact Htable|].
  rewrite (Hi 200%nat ltac:(lia)). f_equal.
  assert (Hl : level default_alpha = Some 114) by (vm_compute; reflexivity).
  rewrite Hl in Ha. by injection Ha as <-.
Defined.

(** C5: the ramp's breakpoints are the indices 25, 63, 127 and 178, the
    floored values of 0.10, 0.25, 0.50 and 0.70 times 255; for an index i
    in (0, 25] the entry is the linear interpolation between the cold
    (blue) and green anchors by the ratio i/25, for i in (25, 63] between
    green and yellow by (i-25)/(63-25), for i in (63, 127] between yellow
    and orange by (i-63)/(127-63), for i in (127, 178] between orange and
    red by (i-127)/(178-127), and for every i above 178 the entry is the
    red anchor.  The anchors carry the alpha int(255 * alpha); the
    interpolation is float64 arithmetic and the table stores its 8-bit
    truncation. *)
Theorem colormap_segments (alpha : float) :
  Py.int_le 0 alpha = true → Py.le_int alpha 1 = true →
  (Py.floor (PrimFloat.mul 255 0.10) = Some 25 ∧
   Py.floor (PrimFloat.mul 255 0.25) = Some 63 ∧
   Py.floor (PrimFloat.mul 255 0.50) = Some 127 ∧
   Py.floor (PrimFloat.mul 255 0.70) = Some 178) ∧
  ∃ table a,
    create_custom_colormap alpha = Some table ∧ level alpha = Some a ∧
    ∀ i : Z,
      (0 < i ≤ 25 →
       table !! Z.to_nat i
       = Some (interpolate (truediv i 25) (cold_bgr ++ [a]) (green_bgr ++ [a]))) ∧
      (25 < i ≤ 63 →
       table !! Z.to_nat i
       = Some (interpolate (truediv (i - 25) (63 - 25))
                 (green_bgr ++ [a]) (yellow_bgr ++ [a]))) ∧
      (63 < i ≤ 127 →
       table !! Z.to_nat i
       = Some (interpolate (truediv (i - 63) (127 - 63))
                 (yellow_bgr ++ [a]) (orange_bgr ++ [a]))) ∧
      (127 < i ≤ 178 →
       table !! Z.to_nat i
       = Some (interpolate (truediv (i - 127) (178 - 127))
                 (orange_bgr ++ [a]) (red_bgr ++ [a]))) ∧
      (178 < i ≤ 255 → table !! Z.to_nat i = Some (red_bgr ++ [a])).
Proof.
  intros H0 H1. split; [repeat split; vm_compute; reflexivity|].
  destruct (level_unit_interval alpha H0 H1) as (a & Ha & Hr).
  exists (ramp_table a), a. rewrite create_custom_colormap_level, Ha.
  split; [done|]. split; [done|]. intros i.
  repeat split; intros Hi; rewrite ramp_table_lookup by lia; f_equal;
    unfold ramp_entry;
    repeat match goal with
           | |- context [?x <=? ?y] =>
               let E := fresh in
               destruct (Z.leb_spec x y) as [E|E]; try lia; clear E
           end;
    try reflexivity.
  simpl. unfold Py.wrap_uint8. rewrite (Z.mod_small a) by lia. reflexivity.
Qed.

Lemma colormap_segments_witness :
  ∃ table, create_custom_colormap default_alpha = Some table ∧
           table !! 12%nat = Some [132; 122; 0; 114].
Proof.
  destruct (colormap_segments default_alpha eq_refl eq_refl)
    as (_ & table & a & Htable & Ha & Hi).
  exists table. split; [exact Htable|].
  destruct (Hi 12) as (Hseg & _). change 12%nat with (Z.to_nat 12).
  rewrite (Hseg ltac:(lia)). f_equal.
  assert (Hl : level default_alpha = Some 114) by (vm_compute; reflexivity).
  rewrite Hl in Ha. injection Ha as <-. vm_compute. reflexivity.
Defined.

(** ** Normalization of a flat grid *)

Lemma concat_replicate_replicate {A} (n m : nat) (x : A) :
  concat (replicate n (replicate m x)) = replicate (n * m) x.
Proof.
  induction n as [|n IH]; simpl; [done|]. by rewrite IH, replicate_add.
Qed.

Lemma foldl_fmin_zeros (n : nat) :
  foldl fmin 0%float (replicate n 0%float) = 0%float.
Proof. induction n as [|n IH]; simpl; [done|]. exact IH. Qed.

Lemma foldl_fmax_zeros (n : nat) :
  foldl fmax 0%float (replicate n 0%float) = 0%float.
Proof. induction n as [|n IH]; simpl; [done|]. exact IH. Qed.

Lemma grid_min_max_fzeros (h w : Z) :
  0 < w → 0 < h →
  grid_min (fzeros h w) = Some 0%float ∧ grid_max (fzeros h w) = Some 0%float.
Proof.
  intros Hw Hh. unfold grid_min, grid_max, fzeros.
  rewrite concat_replicate_replicate.
  destruct (Z.to_nat h * Z.to_nat w)%nat as [|n] eqn:E; [nia|]. simpl.
  by rewrite foldl_fmin_zeros, foldl_fmax_zeros.
Qed.

(** On a uniformly zero grid the scale factor is 0, not a quotient by
    zero, and every element is mapped to 0. *)
Lemma normalize_fzeros (h w : Z) :
  0 < w → 0 < h →
  cv2_normalize_minmax (fzeros h w) 0 255 = Some (fzeros h w).
Proof.
  intros Hw Hh. unfold cv2_normalize_minmax.
  destruct (grid_min_max_fzeros h w Hw Hh) as [-> ->].
  cbn [mbind option_bind]. f_equal. unfold fzeros.
  rewrite !fmap_replicate. reflexivity.
Qed.

Lemma uint8_fzeros (h w : Z) :
  map (map Py.to_uint8) (fzeros h w) = zeros h w.
Proof. unfold fzeros, zeros. by rewrite !fmap_replicate. Qed.

(** C6: if the grid reaching min-max normalization is uniformly zero
    (its minimum equals its maximum), normalization succeeds without a
    division by zero and the output is the uniformly zero 8-bit grid; in
    particular rasterizing an empty detection list returns the all-zero
    height x width grid without error, for any smoothing that maps the
    zero grid to itself and any cap that is not negative. *)
Theorem rasterize_flat_grid (gaussian_filter : fgrid → Z → fgrid)
    (width height sigma cap_value : Z) :
  0 < width → 0 < height →
  PrimFloat.ltb (Py.of_Z cap_value) 0 = false →
  gaussian_filter (fzeros height width) sigma = fzeros height width →
  cv2_normalize_minmax (fzeros height width) 0 255 = Some (fzeros height width) ∧
  map (map Py.to_uint8) (fzeros height width) = zeros height width ∧
  generate_heatmap gaussian_filter [] width height sigma cap_value
  = Some (zeros height width).
Proof.
  intros Hw Hh Hcap Hgauss.
  split; [by apply normalize_fzeros|]. split; [apply uint8_fzeros|].
  unfold generate_heatmap, accumulate.
  destruct (np_zeros_shape height width) as [-> _]; [lia..|].
  cbn [mbind option_bind accumulate_from].
  replace (map (map Py.of_Z) (zeros height width)) with (fzeros height width)
    by (unfold fzeros, zeros; by rewrite !fmap_replicate).
  rewrite Hgauss.
  replace (np_clip_max (fzeros height width) cap_value) with (fzeros height width).
  - rewrite normalize_fzeros by done. cbn [mbind option_bind].
    by rewrite uint8_fzeros.
  - unfold np_clip_max, fzeros. rewrite !fmap_replicate. by rewrite Hcap.
Qed.

Lemma rasterize_flat_grid_witness :
  generate_heatmap no_smoothing [] 708 480 default_sigma default_cap_value
  = Some (zeros 480 708).
Proof.
  apply (rasterize_flat_grid no_smoothing 708 480 default_sigma default_cap_value);
    [lia|lia|reflexivity|reflexivity].
Defined.

(** * Further properties of the code *)

(** ** Rasterizer: order and dropped detections *)

Lemma accumulate_from_app (w h : Z) (ds1 ds2 : list (float * float)) :
  ∀ g, accumulate_from w h (ds1 ++ ds2) g
       = accumulate_from w h ds1 g ≫= accumulate_from w h ds2.
Proof.
  induction ds1 as [|d ds1 IH]; intros g; simpl; [done|].
  destruct (accumulate_step w h g d) as [g1|]; simpl; [apply IH|done].
Qed.

Lemma count_if_Permutation {A} (p : A → bool) (l1 l2 : list A) :
  l1 ≡ₚ l2 → count_if p l1 = count_if p l2.
Proof.
  induction 1 as [|x l1 l2 _ IH|x y l|l1 l2 l3 _ IH1 _ IH2]; simpl; lia.
Qed.

(** Two grids of one shape with the same cells are the same grid. *)
Lemma grid_eq (g1 g2 : grid) (h w : Z) :
  has_shape g1 h w → has_shape g2 h w →
  (∀ r c, cell g1 r c = cell g2 r c) → g1 = g2.
Proof.
  intros [Hl1 Hr1] [Hl2 Hr2] Hcell. apply list_eq. intros r.
  destruct (g1 !! r) as [row1|] eqn:E1, (g2 !! r) as [row2|] eqn:E2.
  - f_equal. apply list_eq. intros c.
    specialize (Hcell r c). unfold cell in Hcell. by rewrite E1, E2 in Hcell.
  - apply lookup_lt_Some in E1. apply lookup_ge_None in E2. lia.
  - apply lookup_ge_None in E1. apply lookup_lt_Some in E2. lia.
  - done.
Qed.

(** X1: the grid accumulated from a detection list does not depend on the
    order of the detections. *)
Theorem accumulate_order_independent (ds1 ds2 : list (float * float))
    (width height : Z) :
  ds1 ≡ₚ ds2 → accumulate ds1 width height = accumulate ds2 width height.
Proof.
  intros Hperm.
  destruct (decide (0 ≤ width ∧ 0 ≤ height)) as [[Hw Hh]|Hneg].
  - destruct (accumulate_cell ds1 width height Hw Hh) as (g1 & -> & Hg1 & Hc1).
    destruct (accumulate_cell ds2 width height Hw Hh) as (g2 & -> & Hg2 & Hc2).
    f_equal. apply (grid_eq g1 g2 height width Hg1 Hg2). intros r c.
    by rewrite Hc1, Hc2, (count_if_Permutation _ ds1 ds2 Hperm).
  - unfold accumulate, np_zeros.
    destruct (0 <=? height) eqn:Eh, (0 <=? width) eqn:Ew; simpl; try done.
    apply Z.leb_le in Eh, Ew. lia.
Qed.

Lemma accumulate_order_independent_witness :
  accumulate [(0.5%float, 1.5%float); (1%float, 0%float)] 2 2
  = accumulate [(1%float, 0%float); (0.5%float, 1.5%float)] 2 2.
Proof.
  apply accumulate_order_independent. apply Permutation_swap.
Defined.

Lemma in_bounds_not_finite (w h : Z) (x y : float) :
  (Py.int x = None ∨ Py.int y = None) → in_bounds w h (x, y) = false.
Proof.
  unfold in_bounds, Py.int_le, Py.lt_int, Py.cmp, Py.int, Py.int_sf. simpl.
  intros [Hx|Hy].
  - destruct (Prim2SF x) as [?|[|]| |]; try discriminate; reflexivity.
  - destruct (Prim2SF y) as [?|[|]| |]; try discriminate;
      by rewrite ?andb_false_r.
Qed.

(** X2: a detection that fails the bounds test is dropped without a
    trace: the grid is the one accumulated from the list without it.  That
    is the fate of every detection with a NaN or infinite coordinate (one
    whose [int] would raise), so such a detection never raises either. *)
Theorem accumulate_drops_out_of_bounds (ds1 ds2 : list (float * float))
    (d : float * float) (width height : Z) :
  in_bounds width height d = false ∨ Py.int (fst d) = None ∨ Py.int (snd d) = None →
  accumulate (ds1 ++ d :: ds2) width height
  = accumulate (ds1 ++ ds2) width height.
Proof.
  intros Hd.
  assert (Hb : in_bounds width height d = false).
  { destruct Hd as [Hb|Hnf]; [done|]. destruct d as [x y].
    by apply in_bounds_not_finite. }
  unfold accumulate. destruct (np_zeros height width) as [g|]; simpl; [|done].
  rewrite !accumulate_from_app.
  destruct (accumulate_from width height ds1 g) as [g1|]; simpl; [|done].
  unfold accumulate_step. by rewrite Hb.
Qed.

Lemma accumulate_drops_out_of_bounds_witness :
  accumulate [(0.5%float, 1.5%float); (nan, 0%float); (1%float, 0%float)] 2 2
  = accumulate [(0.5%float, 1.5%float); (1%float, 0%float)] 2 2.
Proof.
  apply (accumulate_drops_out_of_bounds [(0.5%float, 1.5%float)]
           [(1%float, 0%float)] (nan, 0%float) 2 2).
  right. left. reflexivity.
Defined.

(** ** Rasterizer: shape and range of the intensity grid *)

Lemma rectangular_map2 {A B} (f : A → B) (g : list (list A)) (h w : nat) :
  rectangular g h w → rectangular (map (map f) g) h w.
Proof.
  intros [Hl Hr]. split; [by rewrite length_fmap|].
  apply Forall_fmap. eapply Forall_impl; [exact Hr|].
  intros row Hrow. simpl. by rewrite length_fmap.
Qed.

Lemma has_shape_rectangular (g : grid) (h w : Z) :
  has_shape g h w → rectangular g (Z.to_nat h) (Z.to_nat w).
Proof.
  intros [Hl Hr]. split; [lia|]. apply Forall_forall. intros row Hrow.
  specialize (Hr row Hrow). lia.
Qed.

Lemma rectangular_concat_nonempty {A} (g : list (list A)) (h w : nat) :
  (0 < h)%nat → (0 < w)%nat → rectangular g h w → concat g ≠ [].
Proof.
  intros Hh Hw [Hl Hr]. destruct Hr as [|row g Hrow _]; simpl in *; [lia|].
  destruct row; simpl in *; [lia|done].
Qed.

Lemma normalize_rectangular (src : fgrid) (lo hi : Z) (h w : nat) :
  (0 < h)%nat → (0 < w)%nat → rectangular src h w →
  ∃ dst, cv2_normalize_minmax src lo hi = Some dst ∧ rectangular dst h w.
Proof.
  intros Hh Hw Hsrc. unfold cv2_normalize_minmax, grid_min, grid_max.
  pose proof (rectangular_concat_nonempty src h w Hh Hw Hsrc) as Hne.
  destruct (concat src) as [|v vs]; [done|]. cbn [mbind option_bind].
  eexists. split; [reflexivity|]. by apply rectangular_map2.
Qed.

Lemma generate_heatmap_rectangular (gaussian_filter : fgrid → Z → fgrid)
    (ds : list (float * float)) (width height sigma cap_value : Z) :
  shape_preserving gaussian_filter → 0 < width → 0 < height →
  ∃ heatmap,
    generate_heatmap gaussian_filter ds width height sigma cap_value = Some heatmap ∧
    rectangular heatmap (Z.to_nat height) (Z.to_nat width) ∧
    Forall (Forall (λ v, 0 ≤ v < 256)) heatmap.
Proof.
  intros Hgauss Hw Hh. unfold generate_heatmap.
  destruct (accumulate_cell ds width height) as (g & -> & Hg & _); [lia..|].
  cbn [mbind option_bind].
  apply has_shape_rectangular in Hg.
  destruct (normalize_rectangular
              (np_clip_max (gaussian_filter (map (map Py.of_Z) g) sigma) cap_value)
              0 255 (Z.to_nat height) (Z.to_nat width)) as (dst & -> & Hdst);
    [lia|lia| |].
  { apply rectangular_map2, Hgauss. by apply rectangular_map2. }
  cbn [mbind option_bind]. eexists. split; [reflexivity|].
  split; [by apply rectangular_map2|].
  apply Forall_fmap, Forall_true. intros row. simpl.
  apply Forall_fmap, Forall_true. intros v. apply to_uint8_range.
Qed.

(** X3: for every detection list and every positive width and height,
    with a smoothing filter that keeps the shape of its input,
    [generate_heatmap] never fails and returns a height x width grid whose
    values are 8-bit intensities. *)
Theorem generate_heatmap_shape (gaussian_filter : fgrid → Z → fgrid)
    (ds : list (float * float)) (width height sigma cap_value : Z) :
  shape_preserving gaussian_filter → 0 < width → 0 < height →
  ∃ heatmap,
    generate_heatmap gaussian_filter ds width height sigma cap_value = Some heatmap ∧
    rectangular heatmap (Z.to_nat height) (Z.to_nat width) ∧
    Forall (Forall (λ v, 0 ≤ v < 256)) heatmap.
Proof. apply generate_heatmap_rectangular. Qed.

Lemma no_smoothing_shape_preserving : shape_preserving no_smoothing.
Proof. by intros g sigma h w Hg. Qed.

Lemma generate_heatmap_shape_witness :
  ∃ heatmap,
    generate_heatmap no_smoothing [(1%float, 1%float)] 3 2 15 100 = Some heatmap ∧
    rectangular heatmap 2 3.
Proof.
  destruct (generate_heatmap_shape no_smoothing [(1%float, 1%float)] 3 2 15 100
              no_smoothing_shape_preserving ltac:(lia) ltac:(lia))
    as (heatmap & Hgen & Hrect & _).
  exists heatmap. split; [exact Hgen|exact Hrect].
Defined.

(** ** From intensities to the composited image *)

Lemma ramp_entry_range (a i : Z) :
  Forall (λ v, 0 ≤ v < 256)
    (ramp_entry 25 63 127 178
       [255; 0; 0; a] [0; 255; 0; a] [0; 255; 255; a]
       [0; 165; 255; a] [0; 0; 255; a] i).
Proof.
  unfold ramp_entry, blend_entry.
  repeat match goal with |- context [if ?b then _ else _] => destruct b end;
    apply Forall_fmap, Forall_true; intros v; simpl;
    try apply to_uint8_range.
  unfold Py.wrap_uint8. apply Z.mod_pos_bound. lia.
Qed.

(** Every entry of the table is an RGBA pixel of 8-bit components. *)
Lemma ramp_table_entries (a : Z) :
  Forall (λ e, length e = 4%nat ∧ Forall (λ v, 0 ≤ v < 256) e) (ramp_table a).
Proof.
  apply Forall_lookup. intros i e Hi.
  pose proof (lookup_lt_Some _ _ _ Hi) as Hlt. rewrite ramp_table_length in Hlt.
  destruct i as [|i].
  - rewrite ramp_table_zero in Hi. injection Hi as <-.
    split; [done|]. repeat constructor; lia.
  - rewrite <- (Nat2Z.id (S i)), ramp_table_lookup in Hi by lia.
    injection Hi as <-. split; [apply ramp_entry_length|apply ramp_entry_range].
Qed.

Lemma mapM2_total {A B} (f : A → option B) (g : A → B) (X : list (list A)) :
  Forall (Forall (λ x, f x = Some (g x))) X →
  mapM (mapM f) X = Some (map (map g) X).
Proof.
  intros HX. apply mapM_Some_2, Forall2_fmap_r, Forall_Forall2_diag.
  eapply Forall_impl; [exact HX|]. intros row Hrow.
  by apply mapM_Some_2, Forall2_fmap_r, Forall_Forall2_diag.
Qed.

(** Indexing a 256-entry table with 8-bit intensities always succeeds. *)
Lemma apply_custom_colormap_total (heatmap : grid) (table : list (list Z)) :
  length table = 256%nat →
  Forall (Forall (λ v, 0 ≤ v < 256)) heatmap →
  apply_custom_colormap heatmap table
  = Some (map (map (λ v, default [] (table !! Z.to_nat v))) heatmap).
Proof.
  intros Hlen Hheat. apply mapM2_total.
  eapply Forall_impl; [exact Hheat|]. intros row Hrow.
  eapply Forall_impl; [exact Hrow|]. intros v Hv. simpl in *.
  rewrite index_in_range by lia. simpl.
  destruct (lookup_lt_is_Some_2 table (Z.to_nat v)) as [e He]; [lia|].
  by rewrite He.
Qed.

Lemma colored_layer_is_image (heatmap : grid) (a : Z) (h w : nat) :
  (0 < h)%nat → (0 < w)%nat → rectangular heatmap h w →
  Forall (Forall (λ v, 0 ≤ v < 256)) heatmap →
  is_image 4 (map (map (λ v, default [] (ramp_table a !! Z.to_nat v))) heatmap) h w.
Proof.
  intros Hh Hw [Hl Hr] Hheat. split; [done|]. split; [done|].
  split; [by rewrite length_fmap|].
  apply Forall_fmap.
  eapply Forall_impl; [apply Forall_and; split; [exact Hr|exact Hheat]|].
  intros row [Hrow Hvals]. unfold compose. cbn beta.
  split; [by rewrite length_fmap|].
  apply Forall_fmap. eapply Forall_impl; [exact Hvals|]. intros v Hv.
  unfold compose. cbn beta in *.
  destruct (lookup_lt_is_Some_2 (ramp_table a) (Z.to_nat v)) as [e He].
  { rewrite ramp_table_length. lia. }
  rewrite He. simpl.
  exact (Forall_lookup_1 _ _ _ _ (ramp_table_entries a) He).
Qed.

(** The compositor on two images of one size, as a pixelwise map. *)
Lemma overlay_heatmap_zip (base layer : image) (h w : nat) :
  is_image 3 base h w → is_image 4 layer h w →
  overlay_heatmap base layer = Some (zip_with (zip_with blend_pixel) base layer) ∧
  is_image 3 (zip_with (zip_with blend_pixel) base layer) h w.
Proof.
  intros Hb Hl. pose proof Hb as (Hh & Hw & _).
  destruct (image_pairs base layer h w Hb Hl) as (X & -> & -> & Hne & HXl & HX).
  assert (HX' : Forall (Forall well_formed_pair) X).
  { eapply Forall_impl; [exact HX|]. by intros row [_ Hrow]. }
  rewrite zip_with_pairs. split; [by apply overlay_heatmap_pairs|].
  split; [done|]. split; [done|]. split; [by rewrite length_fmap|].
  apply Forall_fmap. eapply Forall_impl; [exact HX|]. intros row [Hrl Hrow].
  simpl. split; [by rewrite length_fmap|].
  apply Forall_fmap. eapply Forall_impl; [exact Hrow|].
  intros [b l] [[Hbl _] [Hll _]]. simpl.
  destruct b as [|? [|? [|? [|]]]]; try done.
  destruct l as [|? [|? [|? [|? [|]]]]]; try done.
  split; [done|]. repeat constructor; apply to_uint8_range.
Qed.

Lemma is_image_pixel (n : nat) (img : image) (h w r c : nat) (p : list Z) :
  is_image n img h w → pixel_at img r c = Some p →
  length p = n ∧ Forall (λ v, 0 ≤ v < 256) p.
Proof.
  intros (_ & _ & _ & Himg) Hp. unfold pixel_at in Hp.
  destruct (img !! r) as [row|] eqn:Hr; simpl in Hp; [|done].
  destruct (Forall_lookup_1 _ _ _ _ Himg Hr) as [_ Hrow].
  exact (Forall_lookup_1 _ _ _ _ Hrow Hp).
Qed.

Lemma is_image_pixel_at (n : nat) (img : image) (h w r c : nat) :
  is_image n img h w → (r < h)%nat → (c < w)%nat → is_Some (pixel_at img r c).
Proof.
  intros (_ & _ & Hl & Himg) Hr Hc. unfold pixel_at.
  destruct (lookup_lt_is_Some_2 img r) as [row Hrow]; [lia|]. rewrite Hrow. simpl.
  destruct (Forall_lookup_1 _ _ _ _ Himg Hrow) as [Hw _].
  apply lookup_lt_is_Some_2. lia.
Qed.

(** X4: for every alpha in [0, 1], every base image and every intensity
    grid of the same size, building the ramp, coloring the grid and
    compositing succeed, the result has the size of the base, and wherever
    the intensity is 0 the output pixel is the base pixel. *)
Theorem zero_intensity_keeps_base (alpha : float) (heatmap : grid)
    (base : image) (h w : nat) :
  Py.int_le 0 alpha = true → Py.le_int alpha 1 = true →
  is_image 3 base h w → rectangular heatmap h w →
  Forall (Forall (λ v, 0 ≤ v < 256)) heatmap →
  ∃ colormap layer out,
    create_custom_colormap alpha = Some colormap ∧
    apply_custom_colormap heatmap colormap = Some layer ∧
    overlay_heatmap base layer = Some out ∧
    is_image 3 out h w ∧
    ∀ r c, cell heatmap r c = Some 0 → pixel_at out r c = pixel_at base r c.
Proof.
  intros H0 H1 Hbase Hrect Hvals. pose proof Hbase as (Hh & Hw & _).
  destruct (level_unit_interval alpha H0 H1) as (a & Ha & _).
  exists (ramp_table a). eexists. eexists.
  rewrite create_custom_colormap_level, Ha.
  split; [done|].
  split; [apply apply_custom_colormap_total; [apply ramp_table_length|done]|].
  pose proof (colored_layer_is_image heatmap a h w Hh Hw Hrect Hvals) as Hlayer.
  destruct (overlay_heatmap_zip _ _ h w Hbase Hlayer) as [Hov Himg].
  split; [exact Hov|]. split; [exact Himg|].
  intros r c Hcell. unfold pixel_at, cell in *.
  rewrite lookup_zip_with, list_lookup_fmap.
  destruct (heatmap !! r) as [hrow|] eqn:Hhr; simpl in Hcell; [|done].
  assert (Hrlt : (r < h)%nat).
  { apply lookup_lt_Some in Hhr. destruct Hrect as [Hl _]. lia. }
  assert (Hclt : (c < w)%nat).
  { apply lookup_lt_Some in Hcell. destruct Hrect as [_ Hr].
    pose proof (Forall_lookup_1 _ _ _ _ Hr Hhr) as Hlen. cbn beta in Hlen. lia. }
  destruct (is_image_pixel_at 3 base h w r c Hbase Hrlt Hclt) as [b Hb].
  pose proof (is_image_pixel 3 base h w r c b Hbase Hb) as [Hbl Hbr].
  unfold pixel_at in Hb.
  destruct (base !! r) as [brow|] eqn:Hbr'; simpl in Hb; [|done].
  cbn [mbind option_bind fmap option_fmap option_map].
  rewrite lookup_zip_with, Hb, list_lookup_fmap, Hcell.
  cbn [mbind option_bind fmap option_fmap option_map].
  change (Z.to_nat 0) with 0%nat. rewrite ramp_table_zero.
  cbn [from_option id].
  destruct b as [|b0 [|b1 [|b2 [|]]]]; try done.
  apply Forall_cons in Hbr as [? Hbr]. apply Forall_cons in Hbr as [? Hbr].
  apply Forall_cons in Hbr as [? _].
  simpl. f_equal. by rewrite !(blend_alpha_zero 0).
Qed.

Lemma zero_intensity_keeps_base_witness :
  ∃ colormap layer out,
    create_custom_colormap default_alpha = Some colormap ∧
    apply_custom_colormap [[0]] colormap = Some layer ∧
    overlay_heatmap white_pixel_image layer = Some out ∧
    pixel_at out 0 0 = Some [255; 255; 255].
Proof.
  destruct (zero_intensity_keeps_base default_alpha [[0]] white_pixel_image 1 1
              eq_refl eq_refl white_pixel_is_image)
    as (colormap & layer & out & Hc & Hl & Ho & _ & Hp).
  - split; [done|]. by repeat constructor.
  - repeat constructor; lia.
  - exists colormap, layer, out. repeat (split; [assumption|]).
    by rewrite (Hp 0%nat 0%nat eq_refl).
Defined.

(** ** The pipeline of the endpoint *)

Lemma default_level : level default_alpha = Some 114.
Proof. by vm_compute. Qed.

Lemma accumulate_from_all_out (w h : Z) (ds : list (float * float)) (g : grid) :
  Forall (λ d, in_bounds w h d = false) ds → accumulate_from w h ds g = Some g.
Proof.
  induction 1 as [|d ds Hd _ IH]; simpl; [done|].
  unfold accumulate_step. rewrite Hd. exact IH.
Qed.

Lemma generate_heatmap_zeros (gaussian_filter : fgrid → Z → fgrid)
    (ds : list (float * float)) (width height sigma cap_value : Z) :
  0 < width → 0 < height →
  Forall (λ d, in_bounds width height d = false) ds →
  PrimFloat.ltb (Py.of_Z cap_value) 0 = false →
  gaussian_filter (fzeros height width) sigma = fzeros height width →
  generate_heatmap gaussian_filter ds width height sigma cap_value
  = Some (zeros height width).
Proof.
  intros Hw Hh Hout Hcap Hgauss. unfold generate_heatmap, accumulate.
  destruct (np_zeros_shape height width) as [-> _]; [lia..|].
  cbn [mbind option_bind]. rewrite accumulate_from_all_out by done.
  cbn [mbind option_bind].
  replace (map (map Py.of_Z) (zeros height width)) with (fzeros height width)
    by (unfold fzeros, zeros; by rewrite !fmap_replicate).
  rewrite Hgauss.
  replace (np_clip_max (fzeros height width) cap_value) with (fzeros height width).
  - rewrite normalize_fzeros by done. cbn [mbind option_bind].
    by rewrite uint8_fzeros.
  - unfold np_clip_max, fzeros. rewrite !fmap_replicate. by rewrite Hcap.
Qed.

Lemma render_image_total (gaussian_filter : fgrid → Z → fgrid) (img : image)
    (ds : list (float * float)) :
  shape_preserving gaussian_filter → is_image 3 img 480 708 →
  ∃ out, render gaussian_filter img ds = Some out ∧ is_image 3 out 480 708.
Proof.
  intros Hgauss Himg. unfold render.
  destruct (generate_heatmap_rectangular gaussian_filter ds 708 480
              default_sigma default_cap_value Hgauss)
    as (heatmap & -> & Hrect & Hvals); [lia..|].
  cbn [mbind option_bind].
  rewrite create_custom_colormap_level, default_level.
  cbn [mbind option_bind fmap option_fmap option_map].
  rewrite apply_custom_colormap_total by (try apply ramp_table_length; done).
  cbn [mbind option_bind].
  change (Z.to_nat 480) with 480%nat in Hrect.
  change (Z.to_nat 708) with 708%nat in Hrect.
  pose proof (colored_layer_is_image heatmap 114 480 708
                ltac:(lia) ltac:(lia) Hrect Hvals) as Hlayer.
  destruct (overlay_heatmap_zip _ _ 480 708 Himg Hlayer) as [-> Hout].
  eexists. split; [reflexivity|exact Hout].
Qed.

(** X5: on a 708 x 480 base image, with a smoothing filter that keeps the
    shape of its input, the four pipeline calls of the endpoint never fail,
    whatever the detections, and return a 3-channel image of the same
    size. *)
Theorem render_total (gaussian_filter : fgrid → Z → fgrid) (img : image)
    (ds : list (float * float)) :
  shape_preserving gaussian_filter → is_image 3 img 480 708 →
  ∃ out, render gaussian_filter img ds = Some out ∧ is_image 3 out 480 708.
Proof. apply render_image_total. Qed.

Lemma white_canvas_is_image : is_image 3 white_canvas 480 708.
Proof.
  unfold white_canvas. split; [lia|]. split; [lia|].
  split; [apply length_replicate|].
  apply Forall_replicate. split; [apply length_replicate|].
  apply Forall_replicate. split; [done|]. repeat constructor; lia.
Qed.

Lemma render_total_witness :
  ∃ out, render no_smoothing white_canvas [(354%float, 240%float)] = Some out ∧
         is_image 3 out 480 708.
Proof.
  exact (render_total no_smoothing white_canvas [(354%float, 240%float)]
           no_smoothing_shape_preserving white_canvas_is_image).
Defined.

(** X6: when no detection passes the bounds test of the 708 x 480 grid
    (and the smoothing maps the zero grid to itself), the pipeline returns
    the base image unchanged: the intensity grid is zero, every layer pixel
    is the transparent entry 0 of the ramp. *)
Theorem render_without_hits (gaussian_filter : fgrid → Z → fgrid)
    (img : image) (ds : list (float * float)) :
  gaussian_filter (fzeros 480 708) default_sigma = fzeros 480 708 →
  is_image 3 img 480 708 →
  Forall (λ d, in_bounds 708 480 d = false) ds →
  render gaussian_filter img ds = Some img.
Proof.
  intros Hgauss Himg Hout. unfold render.
  rewrite (generate_heatmap_zeros gaussian_filter ds 708 480)
    by (try done; lia).
  cbn [mbind option_bind].
  rewrite create_custom_colormap_level, default_level.
  cbn [mbind option_bind fmap option_fmap option_map].
  assert (Hz : Forall (Forall (λ v, 0 ≤ v < 256)) (zeros 480 708)).
  { apply Forall_replicate, Forall_replicate. lia. }
  rewrite apply_custom_colormap_total by (try apply ramp_table_length; done).
  cbn [mbind option_bind]. unfold zeros. rewrite !fmap_replicate.
  change (Z.to_nat 0) with 0%nat. rewrite ramp_table_zero. cbn [from_option id].
  apply (overlay_alpha_zero img _ 480 708 Himg).
  - split; [lia|]. split; [lia|]. split; [apply length_replicate|].
    apply Forall_replicate. split; [apply length_replicate|].
    apply Forall_replicate. split; [done|]. repeat constructor; lia.
  - apply Forall_replicate, Forall_replicate. reflexivity.
Qed.

Lemma render_without_hits_witness :
  render no_smoothing white_canvas [(1000%float, 1000%float)] = Some white_canvas.
Proof.
  apply (render_without_hits no_smoothing white_canvas [(1000%float, 1000%float)]).
  - reflexivity.
  - exact white_canvas_is_image.
  - repeat constructor.
Defined.

(** ** The extractor: separators and message values *)

Lemma split_length (sep : ascii) (s : string) :
  length (split sep s) = S (count_char sep s).
Proof.
  induction s as [|c s IH]; simpl; [done|].
  destruct (Ascii.eqb c sep); simpl; [by rewrite IH|].
  destruct (split sep s) as [|part parts]; simpl in *; [done|lia].
Qed.

Lemma split_no_separator (sep : ascii) (s : string) :
  count_char sep s = 0%nat → split sep s = [s].
Proof.
  induction s as [|c s IH]; simpl; [done|].
  destruct (Ascii.eqb c sep); simpl; [done|].
  intros Hs. by rewrite IH.
Qed.

Lemma split_append (sep : ascii) (field rest : string) :
  count_char sep field = 0%nat →
  split sep (String.append field (String sep rest)) = field :: split sep rest.
Proof.
  induction field as [|c field IH]; simpl.
  - intros _. by rewrite Ascii.eqb_refl.
  - destruct (Ascii.eqb c sep); simpl; [done|].
    intros Hs. by rewrite IH.
Qed.

(** Splitting what was joined gives the fields back, when no field
    contains the separator. *)
Lemma split_join (fields : list string) :
  fields ≠ [] → Forall (λ f, count_char pipe f = 0%nat) fields →
  split pipe (join fields) = fields.
Proof.
  intros Hne Hfields. induction Hfields as [|f fields Hf Hrest IH]; [done|].
  destruct fields as [|f' fields].
  - simpl. by apply split_no_separator.
  - change (join (f :: f' :: fields))
      with (String.append f (String pipe (join (f' :: fields)))).
    rewrite split_append by done. f_equal. by apply IH.
Qed.

(** X7: a message contributes a detection only if it holds exactly six
    '|' characters: with any other number of them the extraction result is
    the one obtained without the message. *)
Theorem message_needs_six_separators (py_float : string → option float)
    (before after : list string) (msg : string) :
  count_char pipe msg ≠ 6%nat →
  parse_geojson py_float (document (before ++ msg :: after))
  = parse_geojson py_float (document (before ++ after)).
Proof.
  intros Hcount. unfold document. rewrite !parse_document_of_hits. f_equal.
  simpl. rewrite !app_nil_r, !omap_app. f_equal. simpl.
  assert (Hlen : length (split pipe msg) ≠ 7%nat)
    by (rewrite split_length; lia).
  unfold message_centroid.
  destruct (split pipe msg) as [|p0 [|p1 [|p2 [|p3 [|p4 [|p5 [|p6 [|p7 ps]]]]]]]];
    done.
Qed.

Lemma message_needs_six_separators_witness :
  parse_geojson float_of_digits
    (document ["1|100|100|200|200|person|region|x"%string;
               "1|100|100|200|200|person|region"%string])
  = parse_geojson float_of_digits
      (document ["1|100|100|200|200|person|region"%string]).
Proof.
  apply (message_needs_six_separators float_of_digits []
           ["1|100|100|200|200|person|region"%string]
           "1|100|100|200|200|person|region|x"%string).
  by vm_compute.
Defined.

(** X8: for a message made of seven '|'-free fields whose four coordinate
    fields parse, extraction yields exactly the centroid
    ((x_min + x_max) / 2, (y_min + y_max) / 2) when the class label is
    "person" in any letter case, and nothing otherwise; the identifier and
    the region tag play no part. *)
Theorem extract_record (py_float : string → option float)
    (id x_min y_min x_max y_max label region : string) (x0 y0 x1 y1 : float) :
  Forall (λ f, count_char pipe f = 0%nat)
    [id; x_min; y_min; x_max; y_max; label; region] →
  py_float x_min = Some x0 → py_float y_min = Some y0 →
  py_float x_max = Some x1 → py_float y_max = Some y1 →
  parse_geojson py_float
    (document [join [id; x_min; y_min; x_max; y_max; label; region]])
  = Ok (if String.eqb (lower label) "person"
        then [(PrimFloat.div (PrimFloat.add x0 x1) 2,
               PrimFloat.div (PrimFloat.add y0 y1) 2)]
        else []).
Proof.
  intros Hfields Hx0 Hy0 Hx1 Hy1. unfold document.
  rewrite parse_document_of_hits. f_equal.
  cbn [concat app omap list_omap]. unfold message_centroid.
  rewrite split_join by done. rewrite Hx0, Hy0, Hx1, Hy1.
  change (lower "person") with "person"%string.
  by destruct (String.eqb (lower label) "person").
Qed.

Lemma extract_record_witness :
  parse_geojson float_of_digits
    (document [join ["7"; "10"; "20"; "30"; "40"; "PERSON"; "gate"]%string])
  = Ok [(20%float, 30%float)].
Proof.
  rewrite (extract_record float_of_digits "7" "10" "20" "30" "40" "PERSON" "gate"
             10%float 20%float 30%float 40%float);
    [reflexivity|repeat constructor|reflexivity..].
Defined.

Lemma parse_msg_not_string (py_float : string → option float) (m : json) :
  is_string m = false → parse_msg py_float m = Raise AttributeError.
Proof. by destruct m. Qed.

Lemma parse_msgs_not_string (py_float : string → option float) (msgs : list json) :
  Exists (λ m, is_string m = false) msgs →
  ∀ acc, parse_msgs py_float msgs acc = Raise AttributeError.
Proof.
  induction msgs as [|m msgs IH]; intros Hex acc; [by apply Exists_nil in Hex|].
  cbn [parse_msgs]. destruct (is_string m) eqn:Hm.
  - destruct m; try discriminate. rewrite parse_msg_centroid. cbn [bind].
    apply IH. apply Exists_cons in Hex as [Hex|Hex]; [|done].
    simpl in Hex. congruence.
  - by rewrite parse_msg_not_string.
Qed.

Lemma parse_msgs_all_strings (py_float : string → option float) (msgs : list json) :
  Forall (λ m, is_string m = true) msgs →
  ∀ acc, ∃ acc', parse_msgs py_float msgs acc = Ok acc'.
Proof.
  induction 1 as [|m msgs Hm _ IH]; intros acc; cbn [parse_msgs]; [by eexists|].
  destruct m; try discriminate. rewrite parse_msg_centroid. cbn [bind].
  apply IH.
Qed.

Lemma parse_hit_of_values (py_float : string → option float) (msgs : list json)
    (acc : list (float * float)) :
  parse_hit py_float (hit_of_values msgs) acc = parse_msgs py_float msgs acc.
Proof.
  unfold parse_hit, hit_of_values. rewrite dict_get_first. cbn [bind].
  rewrite dict_get_first. reflexivity.
Qed.

(** X9: if any message of the document is not a string (a number, a
    list, null, ...), extraction raises [AttributeError] and returns no
    detection at all, not even those of the well-formed messages before
    it. *)
Theorem non_string_message_raises (py_float : string → option float)
    (hits : list (list json)) :
  Exists (Exists (λ m, is_string m = false)) hits →
  parse_geojson py_float (document_of_values hits) = Raise AttributeError.
Proof.
  intros Hex. unfold parse_geojson, document_of_values.
  rewrite dict_get_first. cbn [bind]. rewrite dict_get_first. cbn [bind iterate].
  generalize (@nil (float * float)) as acc.
  induction hits as [|msgs hits IH]; intros acc; [by apply Exists_nil in Hex|].
  rewrite fmap_cons. cbn [parse_hits]. rewrite parse_hit_of_values.
  destruct (decide (Exists (λ m, is_string m = false) msgs)) as [Hbad|Hgood].
  - by rewrite parse_msgs_not_string.
  - pose proof Hgood as Hno.
    apply not_Exists_Forall in Hgood; [|intros m; apply _].
    destruct (parse_msgs_all_strings py_float msgs) with (acc := acc) as [acc' ->].
    { eapply Forall_impl; [exact Hgood|]. intros m Hm. simpl in Hm.
      by destruct (is_string m). }
    cbn [bind]. apply IH.
    apply Exists_cons in Hex as [Hex|Hex]; [|done].
    exfalso. by apply Hno.
Qed.

Lemma non_string_message_raises_witness :
  parse_geojson float_of_digits
    (document_of_values [[JStr "1|100|100|200|200|person|region"; JInt 5]])
  = Raise AttributeError.
Proof.
  apply non_string_message_raises.
  apply Exists_cons_hd, Exists_cons_tl, Exists_cons_hd. reflexivity.
Defined.

(** ** The color ramp: alpha of the interpolated entries, breakpoints *)

Lemma ramp_entry_alpha (a i : Z) :
  ramp_entry 25 63 127 178
    [255; 0; 0; a] [0; 255; 0; a] [0; 255; 255; a]
    [0; 165; 255; a] [0; 0; 255; a] i !! 3%nat
  = Some (ramp_alpha a i).
Proof.
  unfold ramp_entry, ramp_alpha.
  repeat match goal with |- context [if ?b then _ else _] => destruct b end;
    reflexivity.
Qed.

Lemma ramp_alpha_within_one (a i : Z) :
  0 ≤ a < 256 → 1 ≤ i < 256 → a - 1 ≤ ramp_alpha a i ≤ a.
Proof.
  intros Ha Hi.
  assert (H : forallb
                (λ a, forallb
                        (λ i, (a - 1 <=? ramp_alpha a (1 + i))
                              && (ramp_alpha a (1 + i) <=? a))
                        (seqZ 0 255))
                (seqZ 0 256) = true) by (vm_compute; reflexivity).
  apply (forall_below _ _ H) in Ha.
  assert (Hi' : 0 ≤ i - 1 < 255) by lia.
  apply (forall_below _ _ Ha) in Hi'.
  replace (1 + (i - 1)) with i in Hi' by lia.
  apply andb_true_iff in Hi' as [H1 H2].
  apply Z.leb_le in H1, H2. lia.
Qed.

(** X10: for every alpha in [0, 1], the alpha component of every entry
    1..255 of the ramp is int(255 * alpha) or one less, never more and
    never further away. *)
Theorem colormap_alpha_within_one (alpha : float) :
  Py.int_le 0 alpha = true → Py.le_int alpha 1 = true →
  ∃ table a,
    create_custom_colormap alpha = Some table ∧ level alpha = Some a ∧
    ∀ i : nat, (1 ≤ i ≤ 255)%nat →
      ∃ v, entry_alpha table i = Some v ∧ a - 1 ≤ v ≤ a.
Proof.
  intros H0 H1. destruct (level_unit_interval alpha H0 H1) as (a & Ha & Hr).
  exists (ramp_table a), a. rewrite create_custom_colormap_level, Ha.
  split; [done|]. split; [done|]. intros i Hi.
  exists (ramp_alpha a (Z.of_nat i)). split.
  - unfold entry_alpha.
    rewrite <- (Nat2Z.id i), ramp_table_lookup by lia.
    cbn [mbind option_bind]. rewrite Nat2Z.id. apply ramp_entry_alpha.
  - apply ramp_alpha_within_one; lia.
Qed.

Lemma colormap_alpha_within_one_witness :
  ∃ table v, create_custom_colormap default_alpha = Some table ∧
             entry_alpha table 133 = Some v ∧ 113 ≤ v ≤ 114.
Proof.
  destruct (colormap_alpha_within_one default_alpha eq_refl eq_refl)
    as (table & a & Htable & Ha & Hi).
  destruct (Hi 133%nat ltac:(lia)) as (v & Hv & Hrange).
  exists table, v. split; [exact Htable|]. split; [exact Hv|].
  rewrite default_level in Ha. injection Ha as <-. exact Hrange.
Defined.

Lemma lerp_ratio_one (a : Z) : 0 ≤ a < 256 → lerp 1 a a = a.
Proof.
  intros Ha.
  assert (H : forallb (λ a, lerp 1 a a =? a) (seqZ 0 256) = true)
    by (vm_compute; reflexivity).
  apply (forall_below _ _ H) in Ha. by apply Z.eqb_eq.
Qed.

(** X11: for every alpha in [0, 1], the ramp passes exactly through its
    anchors at the breakpoints: entry 25 is the green anchor, entry 63 the
    yellow one, entry 127 the orange one and entry 178 the red one, each
    with alpha int(255 * alpha). *)
Theorem colormap_breakpoints (alpha : float) :
  Py.int_le 0 alpha = true → Py.le_int alpha 1 = true →
  ∃ table a,
    create_custom_colormap alpha = Some table ∧ level alpha = Some a ∧
    table !! 25%nat = Some (green_bgr ++ [a]) ∧
    table !! 63%nat = Some (yellow_bgr ++ [a]) ∧
    table !! 127%nat = Some (orange_bgr ++ [a]) ∧
    table !! 178%nat = Some (red_bgr ++ [a]).
Proof.
  intros H0 H1. destruct (level_unit_interval alpha H0 H1) as (a & Ha & Hr).
  exists (ramp_table a), a. rewrite create_custom_colormap_level, Ha.
  split; [done|]. split; [done|].
  assert (Hlerp : lerp 1 a a = a) by (apply lerp_ratio_one; lia).
  repeat split.
  - change 25%nat with (Z.to_nat 25). rewrite ramp_table_lookup by lia.
    f_equal. transitivity [0; 255; 0; lerp 1 a a];
      [reflexivity|by rewrite Hlerp].
  - change 63%nat with (Z.to_nat 63). rewrite ramp_table_lookup by lia.
    f_equal. transitivity [0; 255; 255; lerp 1 a a];
      [reflexivity|by rewrite Hlerp].
  - change 127%nat with (Z.to_nat 127). rewrite ramp_table_lookup by lia.
    f_equal. transitivity [0; 165; 255; lerp 1 a a];
      [reflexivity|by rewrite Hlerp].
  - change 178%nat with (Z.to_nat 178). rewrite ramp_table_lookup by lia.
    f_equal. transitivity [0; 0; 255; lerp 1 a a];
      [reflexivity|by rewrite Hlerp].
Qed.

Lemma colormap_breakpoints_witness :
  ∃ table, create_custom_colormap default_alpha = Some table ∧
           table !! 63%nat = Some [0; 255; 255; 114].
Proof.
  destruct (colormap_breakpoints default_alpha eq_refl eq_refl)
    as (table & a & Htable & Ha & _ & H63 & _).
  exists table. split; [exact Htable|]. rewrite H63.
  rewrite default_level in Ha. by injection Ha as <-.
Defined.

(** ** The compositor: opaque layers and sizes that differ *)

Lemma blend_alpha_opaque (l b : Z) :
  0 ≤ l < 256 → 0 ≤ b < 256 → blend 255 l b = l.
Proof.
  intros Hl Hb.
  assert (H : forallb (λ l, forallb (λ b, blend 255 l b =? l) (seqZ 0 256))
                (seqZ 0 256) = true) by (vm_compute; reflexivity).
  apply (forall_below _ _ H) in Hl. apply (forall_below _ _ Hl) in Hb.
  exact (proj1 (Z.eqb_eq _ _) Hb).
Qed.

(** X12: for every base image, compositing it with an RGBA layer of the
    same size whose alpha channel is 255 at every pixel returns the layer's
    three color channels: the base is replaced, pixel for pixel. *)
Theorem overlay_opaque_layer (base layer : image) (h w : nat) :
  is_image 3 base h w → is_image 4 layer h w →
  alpha_opaque_everywhere layer →
  overlay_heatmap base layer = Some (drop_alpha layer).
Proof.
  intros Hb Hl Hz.
  destruct (image_pairs base layer h w Hb Hl) as (X & -> & -> & Hne & HXl & HX).
  assert (HX' : Forall (Forall well_formed_pair) X).
  { eapply Forall_impl; [exact HX|]. by intros row [_ Hrow]. }
  rewrite overlay_heatmap_pairs by done. f_equal.
  unfold drop_alpha. rewrite map_map2.
  unfold alpha_opaque_everywhere in Hz.
  apply Forall_fmap_ext. rewrite Forall_fmap in Hz.
  eapply Forall_impl; [apply Forall_and; split; [exact HX'|exact Hz]|].
  intros row [Hrow Hzrow]. unfold compose in *. cbn beta in *.
  apply Forall_fmap_ext. rewrite Forall_fmap in Hzrow.
  eapply Forall_impl; [apply Forall_and; split; [exact Hrow|exact Hzrow]|].
  intros [b l] [[[Hbl Hbr] [Hll Hlr]] Ha]. unfold compose in *. simpl in *.
  destruct b as [|b0 [|b1 [|b2 [|]]]]; try done.
  destruct l as [|l0 [|l1 [|l2 [|a [|]]]]]; try done.
  injection Ha as ->.
  apply Forall_cons in Hbr as [? Hbr]. apply Forall_cons in Hbr as [? Hbr].
  apply Forall_cons in Hbr as [? _].
  apply Forall_cons in Hlr as [? Hlr]. apply Forall_cons in Hlr as [? Hlr].
  apply Forall_cons in Hlr as [? _].
  simpl. by rewrite !blend_alpha_opaque.
Qed.

Lemma overlay_opaque_layer_witness :
  overlay_heatmap white_pixel_image [[[10; 20; 30; 255]]] = Some [[[10; 20; 30]]].
Proof.
  apply (overlay_opaque_layer white_pixel_image [[[10; 20; 30; 255]]] 1 1
           white_pixel_is_image).
  - unfold is_image. repeat split; try lia; repeat constructor; lia.
  - repeat constructor.
Defined.

Lemma broadcast_mismatch {A B C} (f : A → B → option C)
    (xs : list A) (ys : list B) :
  length xs ≠ length ys → (1 < length xs)%nat → (1 < length ys)%nat →
  broadcast f xs ys = None.
Proof.
  intros Hne Hx Hy. unfold broadcast. rewrite decide_False by done.
  destruct xs as [|x [|x' xs]]; simpl in Hx; try lia.
  destruct ys as [|y [|y' ys]]; simpl in Hy; try lia. done.
Qed.

(** X13: when the base image and the layer have different numbers of
    rows, both more than one, compositing fails (NumPy cannot broadcast
    the two arrays) instead of cropping or stretching either. *)
Theorem overlay_height_mismatch (base layer : image) :
  length base ≠ length layer →
  (1 < length base)%nat → (1 < length layer)%nat →
  overlay_heatmap base layer = None.
Proof.
  intros Hne Hb Hl. unfold overlay_heatmap, cvtColor_BGR2BGRA.
  destruct (nonempty base); [|done].
  destruct (mapM _ base) as [bgra|] eqn:Ebgra; [|done].
  cbn [mbind option_bind].
  destruct (alpha_plane layer) as [ap|] eqn:Eap; [|done].
  cbn [mbind option_bind].
  destruct (np_mul layer ap) as [mh|]; [|done].
  cbn [mbind option_bind].
  apply length_mapM in Ebgra. unfold alpha_plane in Eap. apply length_mapM in Eap.
  unfold np_mul at 1. rewrite broadcast_mismatch; [done|..].
  - unfold one_minus. rewrite length_fmap. lia.
  - lia.
  - unfold one_minus. rewrite length_fmap. lia.
Qed.

Lemma overlay_height_mismatch_witness :
  overlay_heatmap [[[1; 2; 3]]; [[4; 5; 6]]]
    [[[0; 0; 255; 114]]; [[0; 0; 255; 114]]; [[0; 0; 255; 114]]] = None.
Proof.
  apply overlay_height_mismatch; simpl; lia.
Defined.

Lemma broadcast_singleton_r {A B C} (f : A → B → option C)
    (xs : list A) (y : B) :
  broadcast f xs [y] = mapM (λ x, f x y) xs.
Proof.
  unfold broadcast. destruct xs as [|x [|x' xs]]; try reflexivity.
Qed.

Lemma broadcast_singleton_l {A B C} (f : A → B → option C)
    (x : A) (ys : list B) :
  broadcast f [x] ys = mapM (f x) ys.
Proof.
  unfold broadcast. destruct ys as [|y [|y' ys]]; try reflexivity.
Qed.

Lemma broadcast2_singleton_r {A B C} (f : A → B → option C)
    (X : list (list A)) (y : B) :
  broadcast (broadcast f) X [[y]] = mapM (mapM (λ x, f x y)) X.
Proof.
  rewrite broadcast_singleton_r. apply mapM_ext. intros row.
  apply broadcast_singleton_r.
Qed.

Lemma broadcast2_singleton_l {A B C} (f : A → B → option C)
    (x : A) (Y : list (list B)) :
  broadcast (broadcast f) [[x]] Y = mapM (mapM (f x)) Y.
Proof.
  rewrite broadcast_singleton_l. apply mapM_ext. intros row.
  apply broadcast_singleton_l.
Qed.

(** X14: a layer of a single pixel is accepted with a base image of any
    size: NumPy broadcasts it, and every base pixel is blended with that
    one layer pixel. *)
Theorem overlay_single_pixel_layer (base : image) (h w : nat)
    (lb lg lr a : Z) :
  is_image 3 base h w →
  overlay_heatmap base [[[lb; lg; lr; a]]]
  = Some (map (map (λ b, blend_pixel b [lb; lg; lr; a])) base).
Proof.
  intros (Hh & Hw & Hl & Hbase).
  assert (Hpix : Forall (Forall (λ b : list Z, length b = 3%nat)) base).
  { eapply Forall_impl; [exact Hbase|]. intros row [_ Hrow].
    eapply Forall_impl; [exact Hrow|]. by intros b [Hb _]. }
  assert (Hne : nonempty base = true).
  { destruct Hbase as [|row base [Hrow _] _]; simpl in *; [lia|].
    destruct row; simpl in *; [lia|done]. }
  unfold overlay_heatmap, cvtColor_BGR2BGRA. rewrite Hne.
  rewrite (mapM2_total _ (λ b, b ++ [255])); cycle 1.
  { eapply Forall_impl; [exact Hpix|]. intros row Hrow.
    eapply Forall_impl; [exact Hrow|]. intros b Hb. cbn beta in *.
    destruct b as [|? [|? [|? [|]]]]; done. }
  cbn [mbind option_bind].
  change (alpha_plane [[[lb; lg; lr; a]]]) with (Some [[[layer_alpha a]]]).
  cbn [mbind option_bind].
  change (np_mul [[[lb; lg; lr; a]]] [[[layer_alpha a]]])
    with (Some [[(λ v, PrimFloat.mul (Py.of_Z v) (layer_alpha a))
                   <$> [lb; lg; lr; a]]]).
  cbn [mbind option_bind].
  change (one_minus [[[layer_alpha a]]])
    with [[[PrimFloat.sub 1%float (layer_alpha a)]]].
  unfold np_mul. rewrite broadcast2_singleton_r.
  rewrite (mapM2_pointwise _ (λ b, b ++ [255])
             (λ b, (λ v, PrimFloat.mul (Py.of_Z v)
                           (PrimFloat.sub 1%float (layer_alpha a)))
                     <$> (b ++ [255]))); cycle 1.
  { eapply Forall_impl; [exact Hpix|]. intros row Hrow.
    eapply Forall_impl; [exact Hrow|]. intros b Hb. cbn beta in *.
    destruct b as [|? [|? [|? [|]]]]; done. }
  cbn [mbind option_bind]. unfold np_add. rewrite broadcast2_singleton_l.
  rewrite (mapM2_pointwise _ _
             (λ b, zip_with PrimFloat.add
                     ((λ v, PrimFloat.mul (Py.of_Z v) (layer_alpha a))
                        <$> [lb; lg; lr; a])
                     ((λ v, PrimFloat.mul (Py.of_Z v)
                              (PrimFloat.sub 1%float (layer_alpha a)))
                        <$> (b ++ [255])))); cycle 1.
  { eapply Forall_impl; [exact Hpix|]. intros row Hrow.
    eapply Forall_impl; [exact Hrow|]. intros b Hb. cbn beta in *.
    destruct b as [|? [|? [|? [|]]]]; done. }
  cbn [fmap option_fmap option_map mbind option_bind].
  unfold astype_uint8, cvtColor_BGRA2BGR. rewrite map_map2.
  rewrite nonempty_map2, Hne.
  apply mapM2_pointwise.
  eapply Forall_impl; [exact Hpix|]. intros row Hrow.
  eapply Forall_impl; [exact Hrow|]. intros b Hb. cbn beta in *.
  destruct b as [|? [|? [|? [|]]]]; done.
Qed.

Lemma overlay_single_pixel_layer_witness :
  overlay_heatmap [[[255; 255; 255]; [10; 20; 30]]] [[[0; 0; 255; 114]]]
  = Some [[[141; 141; 255]; [5; 11; 130]]].
Proof.
  rewrite (overlay_single_pixel_layer [[[255; 255; 255]; [10; 20; 30]]] 1 2
             0 0 255 114).
  - reflexivity.
  - unfold is_image. repeat split; try lia; repeat constructor; lia.
Defined.

(** ** The endpoint *)

Section EndpointFacts.

Variable py_float : string → option float.
Variable gaussian_filter : fgrid → Z → fgrid.
Variable imdecode : list Byte.byte → call (option image).
Variable resize : image → call image.
Variable json_load : list Byte.byte → loaded.
Variable exn_text : exn → string.
Variable pipeline_text : string.
Variable imencode : image → call (list Byte.byte).

Lemma request_accepted (image json_data : UploadFile) :
  accepted_names image json_data →
  overlay_request py_float gaussian_filter imdecode resize json_load exn_text
    pipeline_text imencode image json_data
  = match process_uploaded_files py_float imdecode resize json_load exn_text
            image json_data with
    | Throw (ValueError msg) =>
        if contains "too large" (lower msg)
        then Throw (HTTPException 413 msg)
        else Throw (ValueError msg)
    | Throw e => Throw e
    | Return (img, detections) =>
        if (length detections =? 0)%nat then
          Throw (HTTPException 422 "No person detections found in JSON data")
        else
          match render gaussian_filter img detections with
          | None => Throw (OtherError pipeline_text)
          | Some result_image =>
              match imencode result_image with
              | Gives content => Return content
              | RaisesValueError msg => Throw (ValueError msg)
              | RaisesOther msg => Throw (OtherError msg)
              end
          end
    end.
Proof.
  intros [(ct & Hct & Hprefix) (name & Hname & Hsuffix)].
  unfold overlay_request. by rewrite Hct, Hprefix, Hname, Hsuffix.
Qed.

End EndpointFacts.

(** X15: once the declared type and name of the uploads are accepted,
    the size limits are checked before any decoding, the JSON first: a
    JSON part of more than 15000000 bytes is answered with status 413
    whatever the image part is, and an image part of more than 5000000
    bytes with status 413 whether or not it is an image. *)
Theorem endpoint_size_limits (py_float : string → option float)
    (gaussian_filter : fgrid → Z → fgrid)
    (imdecode : list Byte.byte → call (option image))
    (resize : image → call image)
    (json_load : list Byte.byte → loaded) (exn_text : exn → string)
    (pipeline_text : string) (imencode : image → call (list Byte.byte))
    (image json_data : UploadFile) :
  accepted_names image json_data →
  (MAX_JSON_SIZE < Z.of_nat (length (file json_data)) →
   generate_heatmap_overlay py_float gaussian_filter imdecode resize json_load
     exn_text pipeline_text imencode image json_data
   = Throw (HTTPException 413
              "JSON file too large (max 15000000 bytes allowed)")) ∧
  (Z.of_nat (length (file json_data)) ≤ MAX_JSON_SIZE →
   MAX_IMAGE_SIZE < Z.of_nat (length (file image)) →
   generate_heatmap_overlay py_float gaussian_filter imdecode resize json_load
     exn_text pipeline_text imencode image json_data
   = Throw (HTTPException 413
              "Image file too large (max 5000000 bytes allowed)")).
Proof.
  intros Hnames. unfold generate_heatmap_overlay.
  rewrite request_accepted by done. unfold process_uploaded_files. split.
  - intros Hjson. apply Z.ltb_lt in Hjson. rewrite Hjson. reflexivity.
  - intros Hjson Himage. apply Z.ltb_ge in Hjson. apply Z.ltb_lt in Himage.
    rewrite Hjson, Himage. reflexivity.
Qed.

Lemma small_uploads_accepted (json_data : UploadFile) :
  (∃ name, filename json_data = Some name ∧ endswith name ".json" = true) →
  accepted_names small_image json_data.
Proof. intros Hname. split; [|done]. by exists "image/png"%string. Qed.

Lemma endpoint_size_limits_witness :
  generate_heatmap_overlay float_of_digits no_smoothing decode_any
    resize_to_canvas load_nothing no_text EmptyString encode_nothing
    small_image large_json
  = Throw (HTTPException 413 "JSON file too large (max 15000000 bytes allowed)").
Proof.
  apply (endpoint_size_limits float_of_digits no_smoothing decode_any
           resize_to_canvas load_nothing no_text EmptyString encode_nothing
           small_image large_json).
  - apply small_uploads_accepted. by exists "large.json"%string.
  - unfold large_json, MAX_JSON_SIZE. cbn [file].
    rewrite length_replicate, Z2Nat.id; lia.
Defined.

(** X16: an upload of accepted type, name and size that does not decode
    is never answered with a 4xx status for a bad image.  When the decoder
    returns [None], the answer is status 500 with the detail
    "Processing error: Invalid image file".  When the decoder raises, as
    OpenCV does on an empty buffer, the answer is status 500 with
    "Processing error: " followed by the text of that exception; only a
    [ValueError] whose text contains "too large" in any letter case is
    answered 413 instead. *)
Theorem endpoint_undecodable_image (py_float : string → option float)
    (gaussian_filter : fgrid → Z → fgrid)
    (imdecode : list Byte.byte → call (option image))
    (resize : image → call image)
    (json_load : list Byte.byte → loaded) (exn_text : exn → string)
    (pipeline_text : string) (imencode : image → call (list Byte.byte))
    (image json_data : UploadFile) :
  accepted_names image json_data →
  Z.of_nat (length (file json_data)) ≤ MAX_JSON_SIZE →
  Z.of_nat (length (file image)) ≤ MAX_IMAGE_SIZE →
  (imdecode (file image) = Gives None →
   generate_heatmap_overlay py_float gaussian_filter imdecode resize json_load
     exn_text pipeline_text imencode image json_data
   = Throw (HTTPException 500 "Processing error: Invalid image file")) ∧
  (∀ msg, imdecode (file image) = RaisesOther msg →
   generate_heatmap_overlay py_float gaussian_filter imdecode resize json_load
     exn_text pipeline_text imencode image json_data
   = Throw (HTTPException 500 (String.append "Processing error: " msg))) ∧
  (∀ msg, imdecode (file image) = RaisesValueError msg →
   generate_heatmap_overlay py_float gaussian_filter imdecode resize json_load
     exn_text pipeline_text imencode image json_data
   = if contains "too large" (lower msg)
     then Throw (HTTPException 413 msg)
     else Throw (HTTPException 500 (String.append "Processing error: " msg))).
Proof.
  intros Hnames Hjson Himage. unfold generate_heatmap_overlay.
  rewrite request_accepted by done. unfold process_uploaded_files.
  apply Z.ltb_ge in Hjson, Himage. rewrite Hjson, Himage.
  split; [|split].
  - intros Hdecode. rewrite Hdecode. reflexivity.
  - intros msg Hdecode. rewrite Hdecode. reflexivity.
  - intros msg Hdecode. rewrite Hdecode.
    by destruct (contains "too large" (lower msg)).
Qed.

Lemma unreadable_upload_accepted :
  accepted_names unreadable_image small_json.
Proof.
  split; [by exists "image/png"%string|by exists "test.json"%string].
Qed.

Lemma endpoint_undecodable_image_witness :
  generate_heatmap_overlay float_of_digits no_smoothing decode_nothing
    resize_to_canvas load_nothing no_text EmptyString encode_nothing
    unreadable_image small_json
  = Throw (HTTPException 500 "Processing error: Invalid image file") ∧
  generate_heatmap_overlay float_of_digits no_smoothing decode_nothing
    resize_to_canvas load_nothing no_text EmptyString encode_nothing
    small_image small_json
  = Throw (HTTPException 500
             "Processing error: imdecode: the buffer is empty").
Proof.
  split.
  - refine (proj1 (endpoint_undecodable_image float_of_digits no_smoothing
                     decode_nothing resize_to_canvas load_nothing no_text
                     EmptyString encode_nothing unreadable_image small_json
                     unreadable_upload_accepted _ _) _).
    + unfold MAX_JSON_SIZE. simpl. lia.
    + unfold MAX_IMAGE_SIZE. simpl. lia.
    + reflexivity.
  - refine (proj1 (proj2 (endpoint_undecodable_image float_of_digits
                            no_smoothing decode_nothing resize_to_canvas
                            load_nothing no_text EmptyString encode_nothing
                            small_image small_json _ _ _))
              "imdecode: the buffer is empty"%string _).
    + apply small_uploads_accepted. by exists "test.json"%string.
    + unfold MAX_JSON_SIZE. simpl. lia.
    + unfold MAX_IMAGE_SIZE. simpl. lia.
    + reflexivity.
Defined.

(** X17: for a request that passes validation (accepted type and name,
    sizes within the limits, an image that decodes, a document that
    loads), with a resize to 708 x 480 and a shape-preserving smoothing:
    if extraction raises, the answer is status 500; if it finds no
    detection, status 422; otherwise the overlay rendered on the resized
    image, a 708 x 480 image, is handed to the encoder, and the answer is
    its encoding, or status 500 if the encoder raises. *)
Theorem endpoint_after_validation (py_float : string → option float)
    (gaussian_filter : fgrid → Z → fgrid)
    (imdecode : list Byte.byte → call (option image))
    (resize : image → call image)
    (json_load : list Byte.byte → loaded) (exn_text : exn → string)
    (pipeline_text : string) (imencode : image → call (list Byte.byte))
    (img resized : image) (data : json) (image json_data : UploadFile) :
  shape_preserving gaussian_filter →
  is_image 3 resized 480 708 →
  accepted_names image json_data →
  Z.of_nat (length (file json_data)) ≤ MAX_JSON_SIZE →
  Z.of_nat (length (file image)) ≤ MAX_IMAGE_SIZE →
  imdecode (file image) = Gives (Some img) →
  resize img = Gives resized →
  json_load (file json_data) = Loaded data →
  match parse_geojson py_float data with
  | Raise e =>
      generate_heatmap_overlay py_float gaussian_filter imdecode resize
        json_load exn_text pipeline_text imencode image json_data
      = Throw (HTTPException 500
                 (String.append "Processing error: " (exn_text e)))
  | Ok [] =>
      generate_heatmap_overlay py_float gaussian_filter imdecode resize
        json_load exn_text pipeline_text imencode image json_data
      = Throw (HTTPException 422 "No person detections found in JSON data")
  | Ok detections =>
      ∃ out,
        render gaussian_filter resized detections = Some out ∧
        is_image 3 out 480 708 ∧
        generate_heatmap_overlay py_float gaussian_filter imdecode resize
          json_load exn_text pipeline_text imencode image json_data
        = match imencode out with
          | Gives content => Return content
          | RaisesValueError msg | RaisesOther msg =>
              Throw (HTTPException 500
                       (String.append "Processing error: " msg))
          end
  end.
Proof.
  intros Hgauss Hresized Hnames Hjson Himage Hdecode Hresize Hload.
  unfold generate_heatmap_overlay.
  rewrite request_accepted by done. unfold process_uploaded_files.
  apply Z.ltb_ge in Hjson, Himage.
  rewrite Hjson, Himage, Hdecode, Hresize, Hload.
  destruct (parse_geojson py_float data) as [[|d ds]|e]; try reflexivity.
  cbn [length Nat.eqb].
  destruct (render_image_total gaussian_filter resized (d :: ds)
              Hgauss Hresized) as (out & Hout & Himg).
  exists out. rewrite Hout. split; [done|]. split; [exact Himg|].
  by destruct (imencode out).
Qed.

Lemma endpoint_after_validation_witness :
  generate_heatmap_overlay float_of_digits no_smoothing decode_any
    resize_to_canvas load_nothing no_text EmptyString encode_nothing
    small_image small_json
  = Throw (HTTPException 422 "No person detections found in JSON data").
Proof.
  apply (endpoint_after_validation float_of_digits no_smoothing decode_any
           resize_to_canvas load_nothing no_text EmptyString encode_nothing
           [[[0; 0; 0]]] white_canvas (JDict []) small_image small_json).
  - exact no_smoothing_shape_preserving.
  - exact white_canvas_is_image.
  - apply small_uploads_accepted. by exists "test.json"%string.
  - unfold MAX_JSON_SIZE. simpl. lia.
  - unfold MAX_IMAGE_SIZE. simpl. lia.
  - reflexivity.
  - reflexivity.
  - reflexivity.
Defined.

Lemma process_uploaded_files_errors (py_float : string → option float)
    (imdecode : list Byte.byte → call (option image))
    (resize : image → call image)
    (json_load : list Byte.byte → loaded) (exn_text : exn → string)
    (image_file json_file : UploadFile) (status_code : Z) (detail : string) :
  process_uploaded_files py_float imdecode resize json_load exn_text
    image_file json_file ≠ Throw (HTTPException status_code detail).
Proof.
  unfold process_uploaded_files.
  repeat match goal with
         | |- context [match ?x with _ => _ end] => destruct x
         end; discriminate.
Qed.

Lemma overlay_request_statuses (py_float : string → option float)
    (gaussian_filter : fgrid → Z → fgrid)
    (imdecode : list Byte.byte → call (option image))
    (resize : image → call image)
    (json_load : list Byte.byte → loaded) (exn_text : exn → string)
    (pipeline_text : string) (imencode : image → call (list Byte.byte))
    (image json_data : UploadFile) (status_code : Z) (detail : string) :
  overlay_request py_float gaussian_filter imdecode resize json_load
    exn_text pipeline_text imencode image json_data
  = Throw (HTTPException status_code detail) →
  status_code = 400 ∨ status_code = 413 ∨ status_code = 422.
Proof.
  unfold overlay_request.
  destruct (content_type image) as [ct|]; [|discriminate].
  destruct (negb (String.prefix "image/" ct)); [intros [= <- <-]; lia|].
  destruct (filename json_data) as [name|]; [|discriminate].
  destruct (negb (endswith name ".json")); [intros [= <- <-]; lia|].
  pose proof (process_uploaded_files_errors py_float imdecode resize json_load
                exn_text image json_data) as Hprocess.
  destruct (process_uploaded_files py_float imdecode resize json_load exn_text
              image json_data) as [[img ds]|[s d|msg|msg]].
  - destruct (length ds =? 0)%nat; [intros [= <- <-]; lia|].
    destruct (render gaussian_filter img ds) as [out|]; [|discriminate].
    destruct (imencode out); discriminate.
  - by destruct (Hprocess s d).
  - destruct (contains "too large" (lower msg)); [intros [= <- <-]; lia|].
    discriminate.
  - discriminate.
Qed.

(** X18: the endpoint lets no exception other than an [HTTPException]
    escape, whatever the uploads are and whatever the decoder, the
    resizer, the loader, the extraction, the pipeline and the encoder
    return or raise, and the status of a failed request is always one of
    400, 413, 422 and 500. *)
Theorem endpoint_failure_statuses (py_float : string → option float)
    (gaussian_filter : fgrid → Z → fgrid)
    (imdecode : list Byte.byte → call (option image))
    (resize : image → call image)
    (json_load : list Byte.byte → loaded) (exn_text : exn → string)
    (pipeline_text : string) (imencode : image → call (list Byte.byte))
    (image json_data : UploadFile) (e : error) :
  generate_heatmap_overlay py_float gaussian_filter imdecode resize json_load
    exn_text pipeline_text imencode image json_data = Throw e →
  ∃ status_code detail,
    e = HTTPException status_code detail ∧ endpoint_status status_code.
Proof.
  unfold generate_heatmap_overlay, endpoint_status.
  destruct (overlay_request py_float gaussian_filter imdecode resize json_load
              exn_text pipeline_text imencode image json_data)
    as [content|[s d|msg|msg]] eqn:E; [discriminate|..];
    intros [= <-]; eexists _, _; (split; [reflexivity|]); [|lia..].
  apply overlay_request_statuses in E. lia.
Qed.

Lemma endpoint_failure_statuses_witness :
  ∃ status_code detail,
    HTTPException 500 "Processing error: imdecode: the buffer is empty"
    = HTTPException status_code detail ∧ endpoint_status status_code.
Proof.
  apply (endpoint_failure_statuses float_of_digits no_smoothing decode_nothing
           resize_to_canvas load_nothing no_text EmptyString encode_nothing
           small_image small_json).
  reflexivity.
Defined.

(** X19: when the JSON part of a validated request fails to load with a
    [ValueError] (malformed JSON, undecodable text), the answer is status
    413 carrying the error text if that text contains "too large" in any
    letter case, and status 500 otherwise: the 413 answer is chosen by the
    wording of the message. *)
Theorem endpoint_unloadable_json (py_float : string → option float)
    (gaussian_filter : fgrid → Z → fgrid)
    (imdecode : list Byte.byte → call (option image))
    (resize : image → call image)
    (json_load : list Byte.byte → loaded) (exn_text : exn → string)
    (pipeline_text : string) (imencode : image → call (list Byte.byte))
    (img resized : image) (msg : string) (image json_data : UploadFile) :
  accepted_names image json_data →
  Z.of_nat (length (file json_data)) ≤ MAX_JSON_SIZE →
  Z.of_nat (length (file image)) ≤ MAX_IMAGE_SIZE →
  imdecode (file image) = Gives (Some img) →
  resize img = Gives resized →
  json_load (file json_data) = LoadValueError msg →
  generate_heatmap_overlay py_float gaussian_filter imdecode resize json_load
    exn_text pipeline_text imencode image json_data
  = if contains "too large" (lower msg)
    then Throw (HTTPException 413 msg)
    else Throw (HTTPException 500 (String.append "Processing error: " msg)).
Proof.
  intros Hnames Hjson Himage Hdecode Hresize Hload.
  unfold generate_heatmap_overlay.
  rewrite request_accepted by done. unfold process_uploaded_files.
  apply Z.ltb_ge in Hjson, Himage.
  rewrite Hjson, Himage, Hdecode, Hresize, Hload.
  by destruct (contains "too large" (lower msg)).
Qed.

Lemma endpoint_unloadable_json_witness :
  generate_heatmap_overlay float_of_digits no_smoothing decode_any
    resize_to_canvas (λ _, LoadValueError "Expecting value: line 1 column 1 (char 0)")
    no_text EmptyString encode_nothing small_image small_json
  = Throw (HTTPException 500
             "Processing error: Expecting value: line 1 column 1 (char 0)").
Proof.
  rewrite (endpoint_unloadable_json float_of_digits no_smoothing decode_any
             resize_to_canvas
             (λ _, LoadValueError "Expecting value: line 1 column 1 (char 0)")
             no_text EmptyString encode_nothing [[[0; 0; 0]]] white_canvas
             "Expecting value: line 1 column 1 (char 0)" small_image small_json).
  - reflexivity.
  - apply small_uploads_accepted. by exists "test.json"%string.
  - unfold MAX_JSON_SIZE. simpl. lia.
  - unfold MAX_IMAGE_SIZE. simpl. lia.
  - reflexivity.
  - reflexivity.
  - reflexivity.
Defined.

Lemma drop_alpha_is_image (layer : image) (h w : nat) :
  is_image 4 layer h w → is_image 3 (drop_alpha layer) h w.
Proof.
  intros (Hh & Hw & Hl & Hlayer). unfold drop_alpha.
  split; [done|]. split; [done|]. split; [by rewrite length_fmap|].
  apply Forall_fmap. eapply Forall_impl; [exact Hlayer|].
  intros row [Hrow Hpix]. unfold compose. cbn beta.
  split; [by rewrite length_fmap|].
  apply Forall_fmap. eapply Forall_impl; [exact Hpix|].
  intros p [Hp Hvals]. unfold compose. cbn beta.
  split; [rewrite length_take; lia|]. by apply Forall_take.
Qed.

(** X20: compositing is idempotent for a fully opaque layer as well: for
    every base image and every layer of the same size whose alpha is 255
    everywhere, compositing the composite again with the layer gives the
    composite. *)
Theorem overlay_opaque_idempotent (base layer : image) (h w : nat) :
  is_image 3 base h w → is_image 4 layer h w →
  alpha_opaque_everywhere layer →
  ∃ once, overlay_heatmap base layer = Some once ∧
          overlay_heatmap once layer = Some once.
Proof.
  intros Hb Hl Ha. exists (drop_alpha layer).
  assert (Hov : ∀ img, is_image 3 img h w →
                       overlay_heatmap img layer = Some (drop_alpha layer)).
  { intros img Himg.
    destruct (image_pairs img layer h w Himg Hl) as (X & -> & HX2 & Hne & HXl & HX).
    assert (HX' : Forall (Forall well_formed_pair) X).
    { eapply Forall_impl; [exact HX|]. by intros row [_ Hrow]. }
    rewrite HX2 in Ha |- *.
    rewrite overlay_heatmap_pairs by done. f_equal.
    unfold drop_alpha. rewrite map_map2.
    unfold alpha_opaque_everywhere in Ha.
    apply Forall_fmap_ext. rewrite Forall_fmap in Ha.
    eapply Forall_impl; [apply Forall_and; split; [exact HX'|exact Ha]|].
    intros row [Hrow Hzrow]. unfold compose in *. cbn beta in *.
    apply Forall_fmap_ext. rewrite Forall_fmap in Hzrow.
    eapply Forall_impl; [apply Forall_and; split; [exact Hrow|exact Hzrow]|].
    intros [b l] [[[Hbl Hbr] [Hll Hlr]] Hop]. unfold compose in *. simpl in *.
    destruct b as [|b0 [|b1 [|b2 [|]]]]; try done.
    destruct l as [|l0 [|l1 [|l2 [|a [|]]]]]; try done.
    injection Hop as ->.
    apply Forall_cons in Hbr as [? Hbr]. apply Forall_cons in Hbr as [? Hbr].
    apply Forall_cons in Hbr as [? _].
    apply Forall_cons in Hlr as [? Hlr]. apply Forall_cons in Hlr as [? Hlr].
    apply Forall_cons in Hlr as [? _].
    simpl. by rewrite !blend_alpha_opaque. }
  split; [by apply Hov|]. apply Hov. by apply drop_alpha_is_image.
Qed.

Lemma overlay_opaque_idempotent_witness :
  ∃ once, overlay_heatmap white_pixel_image [[[10; 20; 30; 255]]] = Some once ∧
          overlay_heatmap once [[[10; 20; 30; 255]]] = Some once.
Proof.
  apply (overlay_opaque_idempotent white_pixel_image [[[10; 20; 30; 255]]] 1 1
           white_pixel_is_image).
  - unfold is_image. repeat split; try lia; repeat constructor; lia.
  - repeat constructor.
Defined.
